(** * Client retention dashboard ([dashboard.py]): a shallow embedding

    The script reads a table with pandas, computes a few aggregates, draws
    them with streamlit widgets and offers a prediction lookup.  The
    development below embeds the script section by section.

    Modelling conventions.
    - A pandas [DataFrame] is an ordered list of column names together with
      the list of its rows in load order; a row is a finite map from column
      name to cell.
    - A cell is a float or a string.  Missing values are the float [nan], as
      in pandas.  Integers and booleans are floats ([True] is [1]).
    - Floats are idealised as rationals: rounding error is not modelled.
    - A Python exception is a value of [exn]; code that can raise returns a
      [result].
    - The script is a computation in a state monad over the global table
      [df] (which line 104 mutates) and the trace of what was rendered and
      of the calls made to the classifier.
    - Where the script leaves a choice to a default of the installed
      libraries, the default is a parameter: numpy's [argsort] for the
      default sort kind, and pandas' [observed] for grouping by a
      categorical column ([False] before pandas 3.0, [True] from 3.0 on). *)

From Stdlib Require Import QArith Lqa DecimalString.
From stdpp Require Import gmap strings list fin_maps sorting.

Set Warnings "-clear-no-such-hyp".

(** ** Cells, series and frames *)

Inductive float := Fin (q : Q) | nan.
Inductive cell := Flt (f : float) | Str (s : string).

Global Instance cell_inhabited : Inhabited cell := populate (Flt nan).

Global Instance Q_eq_dec : EqDecision Q.
Proof. solve_decision. Defined.
Global Instance float_eq_dec : EqDecision float.
Proof. solve_decision. Defined.
Global Instance cell_eq_dec : EqDecision cell.
Proof. solve_decision. Defined.

Abbreviation Num q := (Flt (Fin q)).
Abbreviation NaN := (Flt nan).

Definition Series := list cell.

Record DataFrame := mkDataFrame {
  columns : list string;
  rows : list (gmap string cell)
}.

(** ** Exceptions *)

Inductive exn :=
| KeyError (key : string)
| ValueError
| TypeError
| IndexError.

Inductive result (A : Type) := Ok (a : A) | Raise (e : exn).
Arguments Ok {A} a.
Arguments Raise {A} e.

Global Instance result_ret : MRet result := @Ok.
Global Instance result_bind : MBind result :=
  fun A B f m => match m with Ok a => f a | Raise e => Raise e end.

(** ** Python strings *)

(** [s.startswith(p)] *)
Definition startswith (s p : string) : bool := String.prefix p s.

(** [s.replace(old, new)] for a non-empty [old]: every non-overlapping
    occurrence, scanning from the left.  [skip] counts the characters of an
    occurrence that are still to be dropped. *)
Fixpoint replace_from (old new : string) (skip : nat) (s : string) : string :=
  match s with
  | EmptyString => EmptyString
  | String c s' =>
      match skip with
      | S k => replace_from old new k s'
      | O =>
          if String.prefix old s
          then new +:+ replace_from old new (String.length old - 1) s'
          else String c (replace_from old new 0 s')
      end
  end.

Definition replace (s old new : string) : string := replace_from old new 0 s.

(** ** Float arithmetic, idealised *)

Definition fmul (f : float) (k : Q) : float :=
  match f with
  | Fin q => Fin (Qred (q * k))
  | nan => nan
  end.

(** ** pandas primitives *)

(** [df.shape[0]] *)
Definition shape0 (d : DataFrame) : nat := length (rows d).

(** [df.copy()] *)
Definition copy (d : DataFrame) : DataFrame :=
  mkDataFrame (columns d) (rows d).

(** [df[name]]: the column as a series, or [KeyError]. *)
Definition getitem (d : DataFrame) (name : string) : result Series :=
  if decide (name ∈ columns d)
  then Ok (map (fun r => r !!! name) (rows d))
  else Raise (KeyError name).

(** [df[names]] for a list of names: the sub-frame with these columns in this
    order; [KeyError] when a name is no column (reported here with the first
    such name; pandas lists them all). *)
Definition restrict (names : list string) (r : gmap string cell)
  : gmap string cell :=
  list_to_map (map (fun n => (n, r !!! n)) names).

Definition getitem_list (d : DataFrame) (names : list string)
  : result DataFrame :=
  match List.find (fun n => bool_decide (n ∉ columns d)) names with
  | Some n => Raise (KeyError n)
  | None => Ok (mkDataFrame names (map (restrict names) (rows d)))
  end.

(** [series == v] for a number [v] and for a string [v]. *)
Definition eq_num (v : Q) (c : cell) : bool :=
  match c with
  | Num q => Qeq_bool q v
  | _ => false
  end.

Definition eq_str (v : string) (c : cell) : bool :=
  match c with
  | Str s => bool_decide (s = v)
  | _ => false
  end.

(** [df[mask]]: the rows where the boolean mask holds. *)
Fixpoint boolean_index_rows (rs : list (gmap string cell)) (mask : list bool)
  : list (gmap string cell) :=
  match rs, mask with
  | r :: rs', b :: mask' =>
      if b then r :: boolean_index_rows rs' mask'
      else boolean_index_rows rs' mask'
  | _, _ => []
  end.

Definition boolean_index (d : DataFrame) (mask : list bool) : DataFrame :=
  mkDataFrame (columns d) (boolean_index_rows (rows d) mask).

(** [df.iloc[0:1]] and [df.iloc[0]] *)
Definition iloc_slice_0_1 (d : DataFrame) : DataFrame :=
  mkDataFrame (columns d) (take 1 (rows d)).

Definition iloc0 (d : DataFrame) : result (gmap string cell) :=
  match rows d with
  | r :: _ => Ok r
  | [] => Raise IndexError
  end.

(** [series.mean()]: missing values are skipped, the mean of nothing is
    [nan], a column that holds a string cannot be averaged. *)
Fixpoint numeric (s : Series) : result (list Q) :=
  match s with
  | [] => Ok []
  | Num q :: s' => qs ← numeric s'; Ok (q :: qs)
  | NaN :: s' => numeric s'
  | Str _ :: _ => Raise TypeError
  end.

Definition Qsum (qs : list Q) : Q := foldr Qplus 0%Q qs.

Definition mean_of (qs : list Q) : float :=
  match qs with
  | [] => nan
  | _ => Fin (Qred (Qsum qs / inject_Z (Z.of_nat (length qs))))
  end.

Definition mean (s : Series) : result float :=
  qs ← numeric s; Ok (mean_of qs).

(** The mean of a boolean series: the fraction of [True]. *)
Definition mean_bool (bs : list bool) : float :=
  mean_of (map (fun b : bool => if b then 1%Q else 0%Q) bs).

(** [df[name] = series], for a series over the index of the table: replaces
    the column in place, or appends it.  A list of another length is a
    [ValueError]. *)
Definition setitem (d : DataFrame) (name : string) (s : Series)
  : result DataFrame :=
  if decide (length s = length (rows d))
  then Ok (mkDataFrame
             (if decide (name ∈ columns d) then columns d
              else columns d ++ [name])
             (zip_with (fun r v => <[name := v]> r) (rows d) s))
  else Raise ValueError.

(** [pd.cut(x, bins, labels)] with the defaults [right=True] and
    [include_lowest=False], as pandas computes it: the position of each value
    in the sorted [bins] by a left bisection ([searchsorted(side="left")]);
    position [0] and position [len(bins)] are missing, position [i] takes
    label [i-1]. *)
Definition Qltb (a b : Q) : bool := negb (Qle_bool b a).

Fixpoint searchsorted_left (bins : list Q) (x : Q) : nat :=
  match bins with
  | [] => 0
  | b :: bins' => if Qltb b x then S (searchsorted_left bins' x) else 0
  end.

Definition cut_value (bins : list Q) (labels : list string) (x : Q) : cell :=
  let ids := searchsorted_left bins x in
  if bool_decide (ids = 0 ∨ ids = length bins) then NaN
  else from_option Str NaN (labels !! (ids - 1)).

Fixpoint cut (x : Series) (bins : list Q) (labels : list string)
  : result Series :=
  match x with
  | [] => Ok []
  | Num q :: x' => s ← cut x' bins labels; Ok (cut_value bins labels q :: s)
  | NaN :: x' => s ← cut x' bins labels; Ok (NaN :: s)
  | Str _ :: _ => Raise TypeError
  end.

(** The values of a series selected by a boolean mask. *)
Fixpoint boolean_index_series (s : Series) (mask : list bool) : Series :=
  match s, mask with
  | c :: s', b :: mask' =>
      if b then c :: boolean_index_series s' mask'
      else boolean_index_series s' mask'
  | _, _ => []
  end.

(** [df.groupby(key)[val].mean().reset_index()] when [key] is a categorical
    column with the categories [cats].  The groups are categories, in
    category order; rows whose key is missing are in no group.  Which
    categories get a row depends on [observed], which line 110 leaves at its
    default: with [observed=False] (the default before pandas 3.0) every
    category, also one without rows, whose mean is then [nan]; with
    [observed=True] (the default from pandas 3.0 on) only the categories
    that occur in the column. *)
Definition observed_categories (observed : bool) (k : Series)
    (cats : list string) : list string :=
  if observed then List.filter (fun c => existsb (eq_str c) k) cats else cats.

Definition groupby_categorical_mean (observed : bool) (d : DataFrame)
    (key : string) (cats : list string) (val : string) : result DataFrame :=
  k ← getitem d key;
  v ← getitem d val;
  _ ← numeric v;
  Ok (mkDataFrame [key; val]
        (map (fun c =>
                <[val := Flt (mean_of
                   (match numeric (boolean_index_series v (map (eq_str c) k))
                    with Ok qs => qs | Raise _ => [] end))]>
                  (<[key := Str c]> ∅))
             (observed_categories observed k cats))).

(** The order of group keys: numbers before strings, numbers by value,
    strings by code point. *)
Definition cell_leb (a b : cell) : bool :=
  match a, b with
  | Num p, Num q => Qle_bool p q
  | Num _, _ => true
  | Str s, Str t => String.leb s t
  | Str _, Num _ => false
  | _, _ => true
  end.

Definition cell_eqb (a b : cell) : bool :=
  match a, b with
  | Num p, Num q => Qeq_bool p q
  | Str s, Str t => bool_decide (s = t)
  | NaN, NaN => true
  | _, _ => false
  end.

Definition is_nan (c : cell) : bool :=
  match c with NaN => true | _ => false end.

Fixpoint unique (s : Series) : Series :=
  match s with
  | [] => []
  | c :: s' => c :: List.filter (fun c' => negb (cell_eqb c c')) (unique s')
  end.

Fixpoint insert_sorted (c : cell) (s : Series) : Series :=
  match s with
  | [] => [c]
  | c' :: s' => if cell_leb c c' then c :: s else c' :: insert_sorted c s'
  end.

Definition group_keys (k : Series) : Series :=
  foldr insert_sorted [] (unique (List.filter (fun c => negb (is_nan c)) k)).

(** [df.groupby(key)[val].mean().reset_index()] for an ordinary column:
    one row per distinct key that occurs, sorted by key; rows whose key is
    missing are in no group. *)
Definition groupby_mean (d : DataFrame) (key val : string) : result DataFrame :=
  k ← getitem d key;
  v ← getitem d val;
  _ ← numeric v;
  Ok (mkDataFrame [key; val]
        (map (fun c =>
                <[val := Flt (mean_of
                   (match numeric (boolean_index_series v (map (cell_eqb c) k))
                    with Ok qs => qs | Raise _ => [] end))]>
                  (<[key := c]> ∅))
             (group_keys k))).

(** [pd.DataFrame({n1: c1, n2: c2})] *)
Definition DataFrame_of_dict (n1 : string) (c1 : Series) (n2 : string)
    (c2 : Series) : result DataFrame :=
  if decide (length c1 = length c2)
  then Ok (mkDataFrame [n1; n2]
             (zip_with (fun a b => <[n2 := b]> (<[n1 := a]> ∅)) c1 c2))
  else Raise ValueError.

(** A Python [dict]: keys in insertion order; assigning to a key that is
    present replaces its value where it stands. *)
Definition dict (V : Type) := list (string * V).

Fixpoint dict_set {V} (k : string) (v : V) (d : dict V) : dict V :=
  match d with
  | [] => [(k, v)]
  | (k', v') :: d' =>
      if decide (k = k') then (k', v) :: d' else (k', v') :: dict_set k v d'
  end.

Definition dict_keys {V} (d : dict V) : list string := d.*1.
Definition dict_values {V} (d : dict V) : list V := d.*2.

(** ** Sorting a frame by a float column

    [DataFrame.sort_values(by)] goes through pandas' [nargsort]: the missing
    values are set aside and put last, the others are ordered by numpy's
    [argsort]; for a descending sort the values are reversed before and the
    positions after.  The script leaves [kind] at its default ["quicksort"],
    whose order among equal values numpy does not fix, so [argsort] stays a
    parameter. *)
Definition take_positions {A} (l : list A) (ix : list nat) : list A :=
  omap (fun i => l !! i) ix.

Definition floats (s : Series) : result (list float) :=
  foldr (fun c acc =>
           fs ← acc;
           match c with Flt f => Ok (f :: fs) | Str _ => Raise TypeError end)
        (Ok []) s.

(** [idx[~mask]] paired with [items[~mask]], and [idx[mask]]: the positions
    and values that are present, and the positions that are missing. *)
Fixpoint non_nan_from (i : nat) (items : list float) : list (nat * Q) :=
  match items with
  | [] => []
  | Fin q :: items' => (i, q) :: non_nan_from (S i) items'
  | nan :: items' => non_nan_from (S i) items'
  end.

Fixpoint nan_idx_from (i : nat) (items : list float) : list nat :=
  match items with
  | [] => []
  | Fin _ :: items' => nan_idx_from (S i) items'
  | nan :: items' => i :: nan_idx_from (S i) items'
  end.

Definition non_nan (items : list float) : list (nat * Q) :=
  non_nan_from 0 items.
Definition nan_idx (items : list float) : list nat := nan_idx_from 0 items.

Section Sort.
Variable argsort : list Q -> list nat.

Definition nargsort (items : list float) (ascending : bool) : list nat :=
  let nn := if ascending then non_nan items else reverse (non_nan items) in
  let indexer := take_positions nn.*1 (argsort nn.*2) in
  (if ascending then indexer else reverse indexer) ++ nan_idx items.

Definition sort_values (d : DataFrame) (by_ : string) (ascending : bool)
  : result DataFrame :=
  col ← getitem d by_;
  items ← floats col;
  Ok (mkDataFrame (columns d)
        (take_positions (rows d) (nargsort items ascending))).
End Sort.

(** ** The script as a computation

    The state is the global table [df] and the trace of the page: the
    widgets rendered so far and the calls made to the classifier.  An
    exception ends the run; what was done before it stays done. *)

Inductive event :=
| metric (label : string) (value : float)
| write_return_rate (pct : float)
| plotly_chart (title : string) (data : DataFrame)
| write_insights (top lowest : gmap string cell)
| predict_proba_call (inputs : DataFrame)
| success (pct : Q)
| info.

Record state := mkState {
  df : DataFrame;
  trace : list event
}.

Definition M (A : Type) : Type := state -> result A * state.

Global Instance M_ret : MRet M := fun A a s => (Ok a, s).
Global Instance M_bind : MBind M :=
  fun A B f m s =>
    match m s with
    | (Ok a, s') => f a s'
    | (Raise e, s') => (Raise e, s')
    end.

Definition read_df : M DataFrame := fun s => (Ok (df s), s).
Definition write_df (d : DataFrame) : M unit :=
  fun s => (Ok tt, mkState d (trace s)).
Definition render (e : event) : M unit :=
  fun s => (Ok tt, mkState (df s) (trace s ++ [e])).
Definition lift {A} (r : result A) : M A := fun s => (r, s).

(** Lines 22-23. *)
Definition category_cols_of (d : DataFrame) : list string :=
  List.filter (fun c => startswith c "Category_") (columns d).

Definition categories_of (category_cols : list string) : list string :=
  map (fun c => replace c "Category_" EmptyString) category_cols.

(** [cat: df[df[col] == 1]["Return_Visit"].mean() for cat, col in ...]
    (lines 63-66), filling the dict from the left. *)
Fixpoint cat_return_from (d : DataFrame) (pairs : list (string * string))
    (acc : dict float) : result (dict float) :=
  match pairs with
  | [] => Ok acc
  | (cat, col) :: pairs' =>
      ind ← getitem d col;
      rv ← getitem (boolean_index d (map (eq_num 1) ind)) "Return_Visit";
      m ← mean rv;
      cat_return_from d pairs' (dict_set cat m acc)
  end.

Definition feature_cols_of (category_cols : list string) : list string :=
  ["Purchase_Value"; "Email_Engagement"; "Discount_Used";
   "frequency"; "total_spent"; "avg_spent"; "recency_days";
   "purchase_month"; "purchase_dayofweek"] ++ category_cols.

(** [a[0][1]] on the array the classifier returns. *)
Definition index_0_1 (a : list (list Q)) : result Q :=
  match a with
  | r :: _ => match r with _ :: p :: _ => Ok p | _ => Raise IndexError end
  | [] => Raise IndexError
  end.

Section Script.
(** numpy's [argsort] with the default kind, the loaded classifier, and the
    default of [groupby]'s [observed] in the installed pandas. *)
Variable argsort : list Q -> list nat.
Variable predict_proba : DataFrame -> result (list (list Q)).
Variable observed : bool.

(** Lines 28-38: the four KPIs. *)
Definition kpis : M unit :=
  d ← read_df;
  let total_customers := shape0 d in
  rv ← lift (getitem d "Return_Visit");
  m ← lift (mean rv);
  let overall_return_rate := fmul m 100 in
  pv ← lift (getitem d "Purchase_Value");
  avg_spend ← lift (mean pv);
  ee ← lift (getitem d "Email_Engagement");
  let email_eng_rate := fmul (mean_bool (map (eq_str "Clicked") ee)) 100 in
  _ ← render (metric "Total Customers"
                (Fin (inject_Z (Z.of_nat total_customers))));
  _ ← render (metric "Overall Return Rate" overall_return_rate);
  _ ← render (metric "Avg Purchase Value" avg_spend);
  render (metric "Email Click Rate" email_eng_rate).

(** Line 29 alone. *)
Definition overall_return_rate (d : DataFrame) : result float :=
  rv ← getitem d "Return_Visit";
  m ← mean rv;
  Ok (fmul m 100).

(** Lines 46-50: the filtered view for the selected category. *)
Definition category_filter (selected_cat : string) : M DataFrame :=
  d ← read_df;
  let filtered_df := copy d in
  if bool_decide (selected_cat ≠ "All") then
    let colname := "Category_" +:+ selected_cat in
    ind ← lift (getitem filtered_df colname);
    mret (boolean_index filtered_df (map (eq_num 1) ind))
  else mret filtered_df.

(** Line 53: the return rate of the filtered view, in percent. *)
Definition filtered_return_rate (filtered_df : DataFrame) : result float :=
  rv ← getitem filtered_df "Return_Visit";
  m ← mean rv;
  Ok (fmul m 100).

Definition category_section (selected_cat : string) : M unit :=
  filtered_df ← category_filter selected_cat;
  pct ← lift (filtered_return_rate filtered_df);
  render (write_return_rate pct).

(** Lines 63-71: return rate by category. *)
Definition return_by_category (category_cols categories : list string)
  : M (dict float * DataFrame) :=
  d ← read_df;
  cat_return ← lift (cat_return_from d (zip categories category_cols) []);
  cat_df ← lift (DataFrame_of_dict "Category" (map Str categories)
                   "Return_Rate" (map Flt (dict_values cat_return)));
  _ ← render (plotly_chart "Return Rate by Category" cat_df);
  mret (cat_return, cat_df).

(** Lines 74-77: return rate by email engagement. *)
Definition return_by_email : M DataFrame :=
  d ← read_df;
  email_df ← lift (groupby_mean d "Email_Engagement" "Return_Visit");
  _ ← render (plotly_chart "Impact of Email Engagement on Return Visits"
                email_df);
  mret email_df.

(** Lines 84-96: the categories with the highest and the lowest rate. *)
Definition top_and_lowest (cat_df : DataFrame)
  : result (gmap string cell * gmap string cell) :=
  sorted_desc ← sort_values argsort cat_df "Return_Rate" false;
  top_category ← iloc0 sorted_desc;
  sorted_asc ← sort_values argsort cat_df "Return_Rate" true;
  lowest_category ← iloc0 sorted_asc;
  Ok (top_category, lowest_category).

Definition insights (cat_df : DataFrame) : M unit :=
  tl ← lift (top_and_lowest cat_df);
  render (write_insights tl.1 tl.2).

(** Lines 104-114: spending segments.  Line 104 assigns a column of the
    global table. *)
Definition segmentation : M DataFrame :=
  d ← read_df;
  pv ← lift (getitem d "Purchase_Value");
  segment ← lift (cut pv [0; 80; 150; 300]%Q ["Low"; "Medium"; "High"]);
  d' ← lift (setitem d "Segment" segment);
  _ ← write_df d';
  d ← read_df;
  seg ← lift (groupby_categorical_mean observed d "Segment"
                ["Low"; "Medium"; "High"] "Return_Visit");
  _ ← render (plotly_chart "Return Rate by Spending Segment" seg);
  mret seg.

(** Lines 122-138: the prediction tool.  [cust_id and ...] evaluates the
    membership test only for a non-empty identifier. *)
Definition prediction_tool (category_cols : list string) (cust_id : string)
  : M unit :=
  d ← read_df;
  found ← (if bool_decide (cust_id = EmptyString) then mret false
           else ids ← lift (getitem d "Customer_ID");
                mret (existsb (eq_str cust_id) ids));
  if found : bool then
    ids ← lift (getitem d "Customer_ID");
    let row := iloc_slice_0_1 (boolean_index d (map (eq_str cust_id) ids)) in
    let feature_cols := feature_cols_of category_cols in
    inputs ← lift (getitem_list row feature_cols);
    _ ← render (predict_proba_call inputs);
    proba ← lift (predict_proba inputs);
    pred ← lift (index_0_1 proba);
    _ ← render (success (Qred (pred * 100)));
    render info
  else mret tt.

(** The whole script, for one run with the two user inputs. *)
Definition dashboard (selected_cat cust_id : string) : M unit :=
  d ← read_df;
  let category_cols := category_cols_of d in
  let categories := categories_of category_cols in
  _ ← kpis;
  _ ← category_section selected_cat;
  r ← return_by_category category_cols categories;
  _ ← return_by_email;
  _ ← insights r.2;
  _ ← segmentation;
  prediction_tool category_cols cust_id.
End Script.

(** * Vocabulary of the properties, and sample tables *)

Definition sample_row (id : string) (pv : Q) (ee : string) (rv hair spa : Q)
  : gmap string cell :=
  <["Customer_ID" := Str id]> (<["Purchase_Value" := Num pv]>
  (<["Email_Engagement" := Str ee]> (<["Return_Visit" := Num rv]>
  (<["Category_Hair" := Num hair]> (<["Category_Spa" := Num spa]> ∅))))).

Definition sample_columns : list string :=
  ["Customer_ID"; "Purchase_Value"; "Email_Engagement"; "Return_Visit";
   "Category_Hair"; "Category_Spa"].

(** Three customers with [Return_Visit = [1, 0, 1]] and purchase values on
    the bin edges; nobody bought from the category [Spa]. *)
Definition sample : DataFrame :=
  mkDataFrame sample_columns
    [sample_row "C1" 0 "Clicked" 1 1 0;
     sample_row "C2" 80 "Opened" 0 1 0;
     sample_row "C3" 300 "Clicked" 1 1 0].

(** The stub classifier of the specification's example: probability 0.8. *)
Definition stub_model (inputs : DataFrame) : result (list (list Q)) :=
  Ok [[1 # 5; 4 # 5]%Q].


Definition unit_interval (c : cell) : Prop :=
  exists q, c = Num q /\ (0 <= q <= 1)%Q.

(** Three rows with [Return_Visit = [1, 0, 1]]. *)
Definition three_rows : DataFrame :=
  mkDataFrame ["Return_Visit"]
    [{["Return_Visit" := Num 1]}; {["Return_Visit" := Num 0]};
     {["Return_Visit" := Num 1]}].

(** The label line 104 gives to a purchase value. *)
Definition segment_of (x : Q) : cell :=
  cut_value [0; 80; 150; 300]%Q ["Low"; "Medium"; "High"] x.

Definition segment_cell (c : cell) : cell :=
  match c with
  | Num x => segment_of x
  | _ => NaN
  end.

(** The table after line 104. *)
Definition with_segment (d : DataFrame) : DataFrame :=
  mkDataFrame
    (if decide ("Segment" ∈ columns d) then columns d
     else columns d ++ ["Segment"])
    (map (fun r => <["Segment" := segment_cell (r !!! "Purchase_Value")]> r)
         (rows d)).

Definition is_float (c : cell) : Prop := exists f, c = Flt f.

(** How a run of the segmentation section ends.  Line 104 has already
    changed the table when the grouping of line 110 raises. *)
Definition segmentation_outcome (observed : bool) (d : DataFrame)
    (tr : list event) : result DataFrame * state :=
  match groupby_categorical_mean observed (with_segment d) "Segment"
          ["Low"; "Medium"; "High"] "Return_Visit" with
  | Ok seg =>
      (Ok seg,
       mkState (with_segment d)
         (tr ++ [plotly_chart "Return Rate by Spending Segment" seg]))
  | Raise e => (Raise e, mkState (with_segment d) tr)
  end.

(** The binning as the specification words it: [0,80), [80,150), [150,300). *)
Definition half_open_segment (x : Q) : cell :=
  if Qle_bool 0 x && Qltb x 80 then Str "Low"
  else if Qle_bool 80 x && Qltb x 150 then Str "Medium"
  else if Qle_bool 150 x && Qltb x 300 then Str "High"
  else NaN.

Definition leaves_table {A} (m : M A) : Prop :=
  forall s, df (m s).2 = df s.

(** The result and what is added to the page are functions of the table
    alone. *)
Definition reads_table {A} (m : M A) : Prop :=
  forall s1 s2, df s1 = df s2 ->
    exists out,
      (m s1).1 = (m s2).1 /\
      trace (m s1).2 = trace s1 ++ out /\
      trace (m s2).2 = trace s2 ++ out.

(** A second run, right after the first, returns what the first returned
    and adds to the page what the first added. *)
Definition same_twice {A} (m : M A) : Prop :=
  forall s,
    exists out,
      (m (m s).2).1 = (m s).1 /\
      trace (m s).2 = trace s ++ out /\
      trace (m (m s).2).2 = trace (m s).2 ++ out.

Definition read_only {A} (m : M A) : Prop := leaves_table m /\ reads_table m.

(** What line 104 changes: the column [Segment], and nothing else. *)
Definition only_segment_changed (d d' : DataFrame) : Prop :=
  (columns d' = columns d \/ columns d' = columns d ++ ["Segment"]) /\
  Forall2 (fun r r' : gmap string cell =>
             forall name, name ≠ "Segment" -> r' !! name = r !! name)
          (rows d) (rows d').

Fixpoint dict_get {V} (k : string) (d : dict V) : option V :=
  match d with
  | [] => None
  | (k', v) :: d' => if decide (k = k') then Some v else dict_get k d'
  end.

(** The value the comprehension of lines 63-66 computes for one column. *)
Definition category_rate (d : DataFrame) (col : string) : result float :=
  ind ← getitem d col;
  rv ← getitem (boolean_index d (map (eq_num 1) ind)) "Return_Visit";
  mean rv.


Definition matches (cust_id : string) (r : gmap string cell) : Prop :=
  r !!! "Customer_ID" = Str cust_id.



Definition value_at (v : list Q) (i : nat) : Q := nth i v 0%Q.

(** What numpy promises of [argsort], whatever the kind: the positions of
    the values, each once, in an order in which the values do not
    decrease. *)
Definition argsort_sorts (argsort : list Q -> list nat) : Prop :=
  forall v,
    argsort v ≡ₚ seq 0 (length v) /\
    StronglySorted (fun i j => (value_at v i <= value_at v j)%Q) (argsort v).



(** Two sorts by insertion that differ on equal values only: the first
    keeps them in their order, the second reverses them. *)
Fixpoint insert_position (before : nat -> nat -> bool) (i : nat)
    (p : list nat) : list nat :=
  match p with
  | [] => [i]
  | j :: p' =>
      if before i j then i :: p else j :: insert_position before i p'
  end.

Definition argsort_by (before : list Q -> nat -> nat -> bool) (v : list Q)
  : list nat :=
  foldr (insert_position (before v)) [] (seq 0 (length v)).

Definition before_stable (v : list Q) (i j : nat) : bool :=
  Qltb (value_at v i) (value_at v j)
  || (Qeq_bool (value_at v i) (value_at v j) && (i <? j)).

Definition before_ties_last (v : list Q) (i j : nat) : bool :=
  Qltb (value_at v i) (value_at v j)
  || (Qeq_bool (value_at v i) (value_at v j) && (j <? i)).

Definition stable_argsort : list Q -> list nat := argsort_by before_stable.
Definition ties_last_argsort : list Q -> list nat :=
  argsort_by before_ties_last.

Definition ties_last_order (v : list Q) (i j : nat) : Prop :=
  (value_at v i < value_at v j)%Q \/
  ((value_at v i == value_at v j)%Q /\ j < i).

(** A row of [cat_df] (line 67). *)
Definition category_row (c : string) (f : float) : gmap string cell :=
  <["Return_Rate" := Flt f]> (<["Category" := Str c]> ∅).

(** Two categories with the same rate. *)
Definition tied_cat_df : DataFrame :=
  mkDataFrame ["Category"; "Return_Rate"]
    [category_row "Hair" (Fin (1 # 2)); category_row "Spa" (Fin (1 # 2))].

(** A table with the whole schema; the identifier [C1] occurs twice. *)
Definition record (id : string) (pv : Q) (ee : string)
    (du rv fr ts av rd pm pd hair spa : Q) : gmap string cell :=
  list_to_map
    [("Customer_ID", Str id); ("Purchase_Value", Num pv);
     ("Email_Engagement", Str ee); ("Discount_Used", Num du);
     ("Return_Visit", Num rv); ("frequency", Num fr);
     ("total_spent", Num ts); ("avg_spent", Num av);
     ("recency_days", Num rd); ("purchase_month", Num pm);
     ("purchase_dayofweek", Num pd); ("Category_Hair", Num hair);
     ("Category_Spa", Num spa)].

Definition prepared : DataFrame :=
  mkDataFrame
    ["Customer_ID"; "Purchase_Value"; "Email_Engagement"; "Discount_Used";
     "Return_Visit"; "frequency"; "total_spent"; "avg_spent"; "recency_days";
     "purchase_month"; "purchase_dayofweek"; "Category_Hair"; "Category_Spa"]
    [record "C7" 40 "Opened" 0 0 1 40 40 30 3 2 0 1;
     record "C1" 120 "Clicked" 1 1 2 200 100 12 5 4 1 0;
     record "C1" 80 "Ignored" 0 0 2 200 100 45 4 1 0 1].


(** A table with the columns the KPIs and the lookup need, and no category
    column. *)
Definition plain_row (id : string) (pv : Q) (ee : string) (rv : Q)
  : gmap string cell :=
  <["Customer_ID" := Str id]> (<["Purchase_Value" := Num pv]>
  (<["Email_Engagement" := Str ee]> {["Return_Visit" := Num rv]})).

Definition uncategorised : DataFrame :=
  mkDataFrame
    ["Customer_ID"; "Purchase_Value"; "Email_Engagement"; "Return_Visit"]
    [plain_row "C1" 40 "Clicked" 1; plain_row "C2" 120 "Opened" 0].

(** ** Vocabulary of the further properties *)

(** Whether [old] occurs in [s]. *)
Fixpoint contains (old s : string) : bool :=
  String.prefix old s
  || match s with
     | EmptyString => false
     | String _ s' => contains old s'
     end.

(** The rows of a table whose indicator column [col] equals 1, in load
    order. *)
Definition rows_of_category (d : DataFrame) (col : string)
  : list (gmap string cell) :=
  List.filter (fun r => eq_num 1 (r !!! col)) (rows d).

(** The frames the classifier was called on, in a trace. *)
Definition calls (tr : list event) : list DataFrame :=
  omap (fun e => match e with predict_proba_call i => Some i | _ => None end)
       tr.

(** A section that does not call the classifier. *)
Definition silent {A} (m : M A) : Prop :=
  forall s, calls (trace (m s).2) = calls (trace s).

(** Two columns that give the same category [X]. *)
Definition same_category : DataFrame :=
  mkDataFrame ["Return_Visit"; "Category_X"; "Category_Category_X"]
    [<["Return_Visit" := Num 1]> (<["Category_X" := Num 1]>
       (<["Category_Category_X" := Num 0]> ∅))].

(** The number of rows whose email engagement is ["Clicked"]. *)
Definition clicked (d : DataFrame) : nat :=
  length (List.filter (fun r => eq_str "Clicked" (r !!! "Email_Engagement"))
            (rows d)).

(** The four metrics of lines 35-38. *)
Definition kpi_metrics (d : DataFrame) (overall avg click : float)
  : list event :=
  [metric "Total Customers" (Fin (inject_Z (Z.of_nat (shape0 d))));
   metric "Overall Return Rate" overall;
   metric "Avg Purchase Value" avg;
   metric "Email Click Rate" click].

(** A computation that calls the classifier at most once, and then on a
    frame with the property [P]. *)
Definition calls_at_most_once (P : DataFrame -> Prop) {A} (m : M A) : Prop :=
  forall s,
    calls (trace (m s).2) = calls (trace s) \/
    exists inputs, P inputs /\ calls (trace (m s).2) = calls (trace s) ++ [inputs].

(** A computation after which the table is as it was, or has the column of
    line 104. *)
Definition at_most_segment {A} (m : M A) : Prop :=
  forall s, df (m s).2 = df s \/ df (m s).2 = with_segment (df s).

(** A frame of one row with the feature columns of line 127. *)
Definition one_row_of_features (category_cols : list string)
    (inputs : DataFrame) : Prop :=
  columns inputs = feature_cols_of category_cols /\ length (rows inputs) = 1.

(** A computation that, when it ends normally, has assigned the column of
    line 104. *)
Definition segment_on_success {A} (m : M A) : Prop :=
  forall s a, (m s).1 = Ok a -> df (m s).2 = with_segment (df s).

(** A computation that raises, with the table as it was and without a call
    to the classifier. *)
Definition stops {A} (m : M A) : Prop :=
  forall s,
    (exists e, (m s).1 = Raise e) /\
    df (m s).2 = df s /\
    calls (trace (m s).2) = calls (trace s).




(** A table whose identifiers were read as numbers. *)
Definition numeric_ids : DataFrame :=
  mkDataFrame ["Customer_ID"; "Return_Visit"]
    [<["Customer_ID" := Num 1001]> {["Return_Visit" := Num 1]};
     <["Customer_ID" := Num 1002]> {["Return_Visit" := Num 0]}].

(** Whether a cell is a number in the bin [(lo, hi]]. *)
Definition in_bin (lo hi : Q) (c : cell) : bool :=
  match c with
  | Num x => Qltb lo x && negb (Qltb hi x)
  | _ => false
  end.

(** The mean of [Return_Visit] over the rows whose purchase value is in the
    bin [(lo, hi]]. *)
Definition bin_rate (d : DataFrame) (lo hi : Q) : float :=
  match numeric (map (fun r => r !!! "Return_Visit")
                   (List.filter (fun r => in_bin lo hi (r !!! "Purchase_Value"))
                      (rows d))) with
  | Ok qs => mean_of qs
  | Raise _ => nan
  end.

(** A row of [seg] (line 110). *)
Definition segment_row (label : string) (f : float) : gmap string cell :=
  <["Return_Visit" := Flt f]> (<["Segment" := Str label]> ∅).

(** The bins of line 104 with their labels, and whether some row has its
    purchase value in a bin. *)
Definition segment_bins : list (string * (Q * Q)) :=
  [("Low", (0, 80)); ("Medium", (80, 150)); ("High", (150, 300))]%Q.

Definition bin_occupied (d : DataFrame) (lo hi : Q) : bool :=
  existsb (fun r => in_bin lo hi (r !!! "Purchase_Value")) (rows d).

(** The bins that get a row in [seg]: all three with [observed=False], the
    occupied ones with [observed=True]. *)
Definition charted_bins (observed : bool) (d : DataFrame)
  : list (string * (Q * Q)) :=
  if observed
  then List.filter (fun b => bin_occupied d b.2.1 b.2.2) segment_bins
  else segment_bins.

(** The mean of [Return_Visit] over the rows whose email engagement is
    [key]. *)
Definition group_rate (d : DataFrame) (key : cell) : float :=
  match numeric (map (fun r => r !!! "Return_Visit")
                   (List.filter
                      (fun r => cell_eqb key (r !!! "Email_Engagement"))
                      (rows d))) with
  | Ok qs => mean_of qs
  | Raise _ => nan
  end.

(** A row of [email_df] (line 74). *)
Definition email_row (key : cell) (f : float) : gmap string cell :=
  <["Return_Visit" := Flt f]> (<["Email_Engagement" := key]> ∅).

(** What the page shows for a table without rows: every number is [nan],
    and the chart of segments has a row per segment only with
    [observed=False]. *)
Definition empty_page (observed : bool) (d : DataFrame)
    (categories : list string) (first : string) : list event :=
  kpi_metrics d nan nan nan ++
  [write_return_rate nan;
   plotly_chart "Return Rate by Category"
     (mkDataFrame ["Category"; "Return_Rate"]
        (map (fun c => category_row c nan) categories));
   plotly_chart "Impact of Email Engagement on Return Visits"
     (mkDataFrame ["Email_Engagement"; "Return_Visit"] []);
   write_insights (category_row first nan) (category_row first nan);
   plotly_chart "Return Rate by Spending Segment"
     (mkDataFrame ["Segment"; "Return_Visit"]
        (if observed then []
         else [segment_row "Low" nan; segment_row "Medium" nan;
               segment_row "High" nan]))].

(** The schema of [prepared], without rows. *)
Definition no_rows : DataFrame := mkDataFrame (columns prepared) [].

(** * Properties *)

(** ** Basic facts *)

Lemma copy_eq d : copy d = d.
Proof. by destruct d. Qed.

Lemma getitem_Ok d name :
  name ∈ columns d -> getitem d name = Ok (map (fun r => r !!! name) (rows d)).
Proof. intros H. unfold getitem. by rewrite decide_True. Qed.

Lemma getitem_Raise d name :
  name ∉ columns d -> getitem d name = Raise (KeyError name).
Proof. intros H. unfold getitem. by rewrite decide_False. Qed.

Lemma getitem_inv d name s :
  getitem d name = Ok s ->
  name ∈ columns d /\ s = map (fun r => r !!! name) (rows d).
Proof. unfold getitem. case_decide; naive_solver. Qed.

Lemma Qle_bool_false a b : Qle_bool a b = false <-> (b < a)%Q.
Proof.
  split.
  - intros H. destruct (Qlt_le_dec b a) as [|Hle]; [done|].
    apply Qle_bool_iff in Hle. congruence.
  - intros H. destruct (Qle_bool a b) eqn:E; [|done].
    apply Qle_bool_iff in E. lra.
Qed.

Lemma Qltb_true a b : Qltb a b = true <-> (a < b)%Q.
Proof. unfold Qltb. rewrite negb_true_iff. apply Qle_bool_false. Qed.

Lemma Qltb_false a b : Qltb a b = false <-> (b <= a)%Q.
Proof. unfold Qltb. rewrite negb_false_iff. apply Qle_bool_iff. Qed.

(** Runs the monadic plumbing of a section and leaves the pandas calls. *)
Ltac run :=
  unfold mbind, M_bind, result_bind, mret, M_ret, result_ret,
    lift, read_df, write_df, render;
  cbn beta iota delta [fst snd df trace].

(** ** The prediction tool *)

Section Prediction.
Variable predict_proba : DataFrame -> result (list (list Q)).

(** C10: for the empty identifier the guard [cust_id and ...] stops at its
    first operand.  Whatever the table is (also one without a
    [Customer_ID] column, on which the membership test would raise, and
    one with a row whose identifier is empty), the tool returns normally,
    the classifier is not called and nothing is rendered. *)
Theorem empty_id_short_circuit category_cols d tr :
  prediction_tool predict_proba category_cols EmptyString (mkState d tr)
  = (Ok tt, mkState d tr).
Proof. reflexivity. Qed.

(** The membership test is what raises on a table without the column, so
    the run above did not perform it. *)
Lemma membership_test_raises category_cols cust_id d tr :
  cust_id ≠ EmptyString -> "Customer_ID" ∉ columns d ->
  prediction_tool predict_proba category_cols cust_id (mkState d tr)
  = (Raise (KeyError "Customer_ID"), mkState d tr).
Proof.
  intros Hne Hcol. unfold prediction_tool. run.
  rewrite bool_decide_false by done.
  by rewrite getitem_Raise.
Qed.

Lemma existsb_eq_str_false cust_id (rs : list (gmap string cell)) :
  Forall (fun r => r !!! "Customer_ID" ≠ Str cust_id) rs ->
  existsb (eq_str cust_id) (map (fun r => r !!! "Customer_ID") rs) = false.
Proof.
  induction 1 as [|r rs Hr _ IH]; [done|]. cbn. rewrite IH, orb_false_r.
  destruct (r !!! "Customer_ID") as [f|s]; [done|]. cbn.
  apply bool_decide_eq_false. congruence.
Qed.

(** C5, as amended: when no row has the identifier, the tool returns
    normally, the classifier is not called and nothing is rendered,
    neither a probability nor a message that the customer was not found. *)
Theorem lookup_no_match category_cols cust_id d tr :
  "Customer_ID" ∈ columns d ->
  Forall (fun r => r !!! "Customer_ID" ≠ Str cust_id) (rows d) ->
  prediction_tool predict_proba category_cols cust_id (mkState d tr)
  = (Ok tt, mkState d tr).
Proof.
  intros Hcol Hno. unfold prediction_tool. run.
  case_bool_decide; [done|].
  rewrite (getitem_Ok _ _ Hcol).
  by rewrite existsb_eq_str_false.
Qed.
End Prediction.

Lemma lookup_no_match_witness :
  prediction_tool stub_model (category_cols_of sample) "C9" (mkState sample [])
  = (Ok tt, mkState sample []).
Proof.
  apply (lookup_no_match stub_model (category_cols_of sample) "C9" sample []).
  - compute_done.
  - repeat constructor; by vm_compute.
Defined.

(** C5 as the specification has it asks for a rendered "not found"
    indicator.  Looking up ["C9"] in the sample table renders nothing. *)
Lemma lookup_no_match_counterexample :
  Forall (fun r => r !!! "Customer_ID" ≠ Str "C9") (rows sample) /\
  trace (prediction_tool stub_model (category_cols_of sample) "C9"
           (mkState sample [])).2 = [].
Proof. split; [repeat constructor; by vm_compute | reflexivity]. Qed.

(** ** The category filter *)

(** C7: with the sentinel ["All"] the filtered view is the table itself: the
    same rows, so the same row count, and its return rate is the overall
    return rate.  The global table stays as it was. *)
Theorem filter_all d tr :
  exists view,
    category_filter "All" (mkState d tr) = (Ok view, mkState d tr) /\
    view = d /\
    shape0 view = shape0 d /\
    filtered_return_rate view = overall_return_rate d.
Proof.
  exists d. split_and!; [|done..].
  unfold category_filter. run. rewrite bool_decide_false by naive_solver.
  by rewrite copy_eq.
Qed.

Lemma elem_of_category_cols_of d c :
  c ∈ category_cols_of d <-> c ∈ columns d /\ startswith c "Category_" = true.
Proof.
  unfold category_cols_of. by rewrite !list_elem_of_In, filter_In.
Qed.

Lemma startswith_Category name :
  startswith ("Category_" +:+ name) "Category_" = true.
Proof. unfold startswith. cbn. by destruct name. Qed.





(** ** The overall return rate *)

Lemma numeric_unit_interval (rv : Series) :
  Forall unit_interval rv ->
  exists qs, numeric rv = Ok qs /\ length qs = length rv /\
             Forall (fun q => (0 <= q <= 1)%Q) qs.
Proof.
  induction 1 as [|c rv (q & -> & Hq) _ (qs & E & Hlen & Hqs)].
  - by exists [].
  - exists (q :: qs). cbn. rewrite E. cbn. split_and!; [done|by f_equal|].
    by constructor.
Qed.

Lemma Qsum_unit_interval (qs : list Q) :
  Forall (fun q => (0 <= q <= 1)%Q) qs ->
  (0 <= Qsum qs <= inject_Z (Z.of_nat (length qs)))%Q.
Proof.
  induction 1 as [|q qs Hq _ IH]; cbn [Qsum foldr length].
  - split; apply Qle_refl.
  - fold (Qsum qs). rewrite Nat2Z.inj_succ, <- Z.add_1_r, inject_Z_plus.
    change (inject_Z 1) with 1%Q. lra.
Qed.

Lemma mean_of_cons q (qs : list Q) :
  exists m, mean_of (q :: qs) = Fin m /\
    (m == Qsum (q :: qs) / inject_Z (Z.of_nat (length (q :: qs))))%Q.
Proof. eexists. split; [reflexivity|]. apply Qred_correct. Qed.

(** C9, as amended: line 29 scales the mean by 100.  For a non-empty table
    whose [Return_Visit] values lie in [0,1], the mean of the column lies in
    [0,1] and [overall_return_rate] is that mean times 100, so it lies in
    [0,100].  For [Return_Visit = [1, 0, 1]] the mean is 2/3 and
    [overall_return_rate] is 200/3, which is 66.7 to one decimal. *)
Theorem overall_return_rate_percent d rv :
  getitem d "Return_Visit" = Ok rv ->
  rv ≠ [] ->
  Forall unit_interval rv ->
  (exists qs m p,
     numeric rv = Ok qs /\ length qs = length rv /\
     mean rv = Ok (Fin m) /\
     (m == Qsum qs / inject_Z (Z.of_nat (length rv)))%Q /\
     (0 <= m <= 1)%Q /\
     overall_return_rate d = Ok (Fin p) /\
     (p == m * 100)%Q /\ (0 <= p <= 100)%Q) /\
  mean [Num 1; Num 0; Num 1] = Ok (Fin (2 # 3)) /\
  overall_return_rate three_rows = Ok (Fin (200 # 3)) /\
  (6665 # 100 <= 200 # 3 < 6675 # 100)%Q.
Proof.
  intros Hget Hne Hunit. split; [|split_and!; try reflexivity; lra].
  destruct (numeric_unit_interval rv Hunit) as (qs & Enum & Hlen & Hqs).
  destruct qs as [|q qs]; [by destruct rv|].
  destruct (mean_of_cons q qs) as (m & Em & Hm).
  pose proof (Qsum_unit_interval _ Hqs) as Hsum.
  assert (0 < inject_Z (Z.of_nat (length (q :: qs))))%Q as Hpos.
  { change 0%Q with (inject_Z 0). rewrite <- Zlt_Qlt. cbn [length]. lia. }
  assert (0 <= m <= 1)%Q as Hm01.
  { rewrite Hm. split.
    - apply Qle_shift_div_l; [done|]. lra.
    - apply Qle_shift_div_r; [done|]. lra. }
  exists (q :: qs), m, (Qred (m * 100)).
  split_and!; try done; try apply Hm01.
  - unfold mean. rewrite Enum. run. by rewrite Em.
  - by rewrite <- Hlen.
  - unfold overall_return_rate, mean. rewrite Hget. run.
    rewrite Enum. by rewrite Em.
  - apply Qred_correct.
  - rewrite Qred_correct. lra.
  - rewrite Qred_correct. lra.
Qed.

Lemma overall_return_rate_percent_witness :
  (exists qs m p,
     numeric [Num 1; Num 0; Num 1] = Ok qs /\
     length qs = length [Num 1; Num 0; Num 1] /\
     mean [Num 1; Num 0; Num 1] = Ok (Fin m) /\
     (m == Qsum qs / inject_Z (Z.of_nat (length [Num 1; Num 0; Num 1])))%Q /\
     (0 <= m <= 1)%Q /\
     overall_return_rate three_rows = Ok (Fin p) /\
     (p == m * 100)%Q /\ (0 <= p <= 100)%Q) /\
  mean [Num 1; Num 0; Num 1] = Ok (Fin (2 # 3)) /\
  overall_return_rate three_rows = Ok (Fin (200 # 3)) /\
  (6665 # 100 <= 200 # 3 < 6675 # 100)%Q.
Proof.
  apply (overall_return_rate_percent three_rows [Num 1; Num 0; Num 1]).
  - reflexivity.
  - done.
  - repeat constructor; eexists; (split; [reflexivity|]); split; by vm_compute.
Defined.

(** C9 as the specification has it: a rate in [0,1], 0.667 for
    [Return_Visit = [1, 0, 1]].  The script's value there is 200/3. *)
Lemma overall_return_rate_counterexample :
  overall_return_rate three_rows = Ok (Fin (200 # 3)) /\
  ~ (0 <= 200 # 3 <= 1)%Q /\
  ~ (6665 # 10000 <= 200 # 3 < 6675 # 10000)%Q.
Proof. split_and!; [reflexivity|lra..]. Qed.

(** ** Spending segments *)

Lemma segment_of_bins (x : Q) :
  ((0 < x <= 80)%Q -> segment_of x = Str "Low") /\
  ((80 < x <= 150)%Q -> segment_of x = Str "Medium") /\
  ((150 < x <= 300)%Q -> segment_of x = Str "High") /\
  ((x <= 0)%Q \/ (300 < x)%Q -> segment_of x = NaN).
Proof.
  unfold segment_of, cut_value, searchsorted_left.
  destruct (Qltb 0 x) eqn:E0;
    [apply Qltb_true in E0|apply Qltb_false in E0];
  (destruct (Qltb 80 x) eqn:E1;
    [apply Qltb_true in E1|apply Qltb_false in E1]);
  (destruct (Qltb 150 x) eqn:E2;
    [apply Qltb_true in E2|apply Qltb_false in E2]);
  (destruct (Qltb 300 x) eqn:E3;
    [apply Qltb_true in E3|apply Qltb_false in E3]);
  cbn; split_and!; intros; try reflexivity; lra.
Qed.

Lemma cut_inv (x : Series) bins labels s :
  cut x bins labels = Ok s ->
  Forall is_float x /\
  s = map (fun c => match c with
                    | Num q => cut_value bins labels q
                    | _ => NaN
                    end) x.
Proof.
  revert s. induction x as [|[[q|]|t] x IH]; intros s; cbn.
  - intros [= <-]. by split.
  - destruct (cut x bins labels) as [s'|e]; [|done]. intros [= <-].
    destruct (IH _ eq_refl) as [? ->]. split; [|done].
    constructor; [by eexists|done].
  - destruct (cut x bins labels) as [s'|e]; [|done]. intros [= <-].
    destruct (IH _ eq_refl) as [? ->]. split; [|done].
    constructor; [by eexists|done].
  - done.
Qed.

Lemma cut_Ok (x : Series) bins labels :
  Forall is_float x ->
  cut x bins labels
  = Ok (map (fun c => match c with
                      | Num q => cut_value bins labels q
                      | _ => NaN
                      end) x).
Proof.
  induction 1 as [|c x [f ->] _ IH]; [done|].
  destruct f; cbn; by rewrite IH.
Qed.

Lemma zip_with_map_r {A B C} (f : A -> B -> C) (g : A -> B) (l : list A) :
  zip_with f l (map g l) = map (fun a => f a (g a)) l.
Proof. induction l; cbn; by f_equal. Qed.

Lemma setitem_segment d :
  setitem d "Segment"
    (map segment_cell (map (fun r => r !!! "Purchase_Value") (rows d)))
  = Ok (with_segment d).
Proof.
  unfold setitem, with_segment.
  rewrite decide_True by (by rewrite !length_map).
  do 2 f_equal. rewrite map_map.
  apply (zip_with_map_r (fun r v => <["Segment" := v]> r)).
Qed.

Lemma segmentation_run observed d tr :
  "Purchase_Value" ∈ columns d ->
  Forall (fun r => is_float (r !!! "Purchase_Value")) (rows d) ->
  segmentation observed (mkState d tr) = segmentation_outcome observed d tr.
Proof.
  intros Hcol Hpv. unfold segmentation, segmentation_outcome. run.
  rewrite (getitem_Ok _ _ Hcol).
  rewrite cut_Ok by (by apply Forall_map).
  change (map _ (map ?f (rows d))) with (map segment_cell (map f (rows d))).
  by rewrite setitem_segment.
Qed.

(** When the segmentation raises before line 104 is done, nothing has
    changed. *)
Lemma segmentation_cases observed d tr :
  ("Purchase_Value" ∈ columns d /\
   Forall (fun r => is_float (r !!! "Purchase_Value")) (rows d) /\
   segmentation observed (mkState d tr) = segmentation_outcome observed d tr) \/
  (exists e, segmentation observed (mkState d tr) = (Raise e, mkState d tr)).
Proof.
  destruct (decide ("Purchase_Value" ∈ columns d)) as [Hcol|Hcol].
  - destruct (cut (map (fun r => r !!! "Purchase_Value") (rows d))
                [0; 80; 150; 300]%Q ["Low"; "Medium"; "High"])
      as [s|e] eqn:Ecut.
    + left. apply cut_inv in Ecut as [Hfl _].
      apply (proj1 (Forall_map _ _ _)) in Hfl.
      split; [done|]. split; [exact Hfl|]. by apply segmentation_run.
    + right. exists e. unfold segmentation. run.
      rewrite (getitem_Ok _ _ Hcol). by rewrite Ecut.
  - right. eexists. unfold segmentation. run.
    by rewrite (getitem_Raise _ _ Hcol).
Qed.

(** C1, as amended: line 104 uses [pd.cut] with its defaults, whose bins are
    open on the left and closed on the right.  Every row gets the label of
    its purchase value: (0,80] is "Low", (80,150] is "Medium", (150,300] is
    "High", anything else (and a missing value) gets no label.  So 0 gets no
    label, 80 gets "Low", 150 gets "Medium" and 300 gets "High". *)
Theorem segment_assignment observed d tr :
  "Purchase_Value" ∈ columns d ->
  Forall (fun r => is_float (r !!! "Purchase_Value")) (rows d) ->
  rows (df (segmentation observed (mkState d tr)).2)
  = map (fun r => <["Segment" := segment_cell (r !!! "Purchase_Value")]> r)
        (rows d) /\
  (forall x : Q,
     ((0 < x <= 80)%Q -> segment_of x = Str "Low") /\
     ((80 < x <= 150)%Q -> segment_of x = Str "Medium") /\
     ((150 < x <= 300)%Q -> segment_of x = Str "High") /\
     ((x <= 0)%Q \/ (300 < x)%Q -> segment_of x = NaN)) /\
  segment_of 0 = NaN /\ segment_of 80 = Str "Low" /\
  segment_of 150 = Str "Medium" /\ segment_of 300 = Str "High".
Proof.
  intros Hcol Hpv. split; [|split; [apply segment_of_bins|done]].
  rewrite segmentation_run by done. unfold segmentation_outcome.
  by destruct (groupby_categorical_mean _ _ _ _ _).
Qed.

Lemma segment_assignment_witness :
  rows (df (segmentation false (mkState sample [])).2)
  = map (fun r => <["Segment" := segment_cell (r !!! "Purchase_Value")]> r)
        (rows sample) /\
  (forall x : Q,
     ((0 < x <= 80)%Q -> segment_of x = Str "Low") /\
     ((80 < x <= 150)%Q -> segment_of x = Str "Medium") /\
     ((150 < x <= 300)%Q -> segment_of x = Str "High") /\
     ((x <= 0)%Q \/ (300 < x)%Q -> segment_of x = NaN)) /\
  segment_of 0 = NaN /\ segment_of 80 = Str "Low" /\
  segment_of 150 = Str "Medium" /\ segment_of 300 = Str "High".
Proof.
  apply (segment_assignment false sample []).
  - compute_done.
  - repeat constructor; by eexists.
Defined.

(** C1 as the specification has it: 0 is "Low", 80 is "Medium", 300 has no
    label.  The sample table has these three purchase values; line 104 gives
    them no label, "Low" and "High". *)
Lemma segment_assignment_counterexample :
  getitem sample "Purchase_Value" = Ok [Num 0; Num 80; Num 300] /\
  map half_open_segment [0; 80; 300]%Q = [Str "Low"; Str "Medium"; NaN] /\
  getitem (df (segmentation false (mkState sample [])).2) "Segment"
  = Ok [NaN; Str "Low"; Str "High"].
Proof. split_and!; reflexivity. Qed.

(** ** Which sections touch the table *)

Lemma read_only_same_twice {A} (m : M A) : read_only m -> same_twice m.
Proof.
  intros [Hl Hr] s.
  destruct (Hr (m s).2 s (Hl s)) as (out & Hres & Hout2 & Hout1).
  by exists out.
Qed.

Lemma read_only_bind {A B} (m : M A) (f : A -> M B) :
  read_only m -> (forall a, read_only (f a)) -> read_only (m ≫= f).
Proof.
  intros [Hl Hr] Hf. split.
  - intros s. unfold mbind, M_bind. specialize (Hl s).
    destruct (m s) as [[a|e] s']; [|done].
    cbn in Hl. rewrite <- Hl. apply (Hf a).
  - intros s1 s2 E. unfold mbind, M_bind.
    destruct (Hr s1 s2 E) as (out & Hres & Hout1 & Hout2).
    pose proof (Hl s1) as H1. pose proof (Hl s2) as H2.
    destruct (m s1) as [[a1|e1] s1'], (m s2) as [[a2|e2] s2'];
      cbn in *; try congruence.
    + injection Hres as ->.
      destruct (Hf a2) as [_ Hfr].
      destruct (Hfr s1' s2') as (out' & Hres' & Hout1' & Hout2');
        [congruence|].
      exists (out ++ out'). rewrite Hout1', Hout2', Hout1, Hout2.
      by rewrite !app_assoc.
    + injection Hres as ->. by exists out.
Qed.

Lemma read_only_ret {A} (a : A) : read_only (mret a : M A).
Proof. split; [done|]. intros s1 s2 _. exists []. by rewrite !app_nil_r. Qed.

Lemma read_only_lift {A} (r : result A) : read_only (lift r).
Proof. split; [done|]. intros s1 s2 _. exists []. by rewrite !app_nil_r. Qed.

Lemma read_only_read_df : read_only read_df.
Proof.
  split; [done|]. intros s1 s2 E. exists []. cbn. rewrite !app_nil_r.
  split; [by f_equal|done].
Qed.

Lemma read_only_render e : read_only (render e).
Proof. split; [done|]. intros s1 s2 _. by exists [e]. Qed.

Create HintDb read_only.
#[export] Hint Resolve read_only_ret read_only_lift read_only_read_df
  read_only_render : read_only.

Ltac solve_read_only :=
  repeat first
    [ apply read_only_bind; [|intros ?]
    | solve [auto with read_only]
    | match goal with |- read_only (if ?b then _ else _) => destruct b end ].

Lemma read_only_kpis : read_only kpis.
Proof. unfold kpis. solve_read_only. Qed.

Lemma read_only_category_filter c : read_only (category_filter c).
Proof. unfold category_filter. solve_read_only. Qed.

Lemma read_only_category_section c : read_only (category_section c).
Proof.
  unfold category_section.
  apply read_only_bind; [apply read_only_category_filter|intros ?].
  solve_read_only.
Qed.

Lemma read_only_return_by_category cc cs :
  read_only (return_by_category cc cs).
Proof. unfold return_by_category. solve_read_only. Qed.

Lemma read_only_return_by_email : read_only return_by_email.
Proof. unfold return_by_email. solve_read_only. Qed.

Lemma read_only_insights argsort cat_df : read_only (insights argsort cat_df).
Proof. unfold insights. solve_read_only. Qed.

Lemma read_only_prediction_tool predict_proba cc cust_id :
  read_only (prediction_tool predict_proba cc cust_id).
Proof. unfold prediction_tool. solve_read_only. Qed.

(** Line 104 again changes nothing. *)
Lemma with_segment_idemp d : with_segment (with_segment d) = with_segment d.
Proof.
  unfold with_segment. cbn [columns rows]. f_equal.
  - destruct (decide ("Segment" ∈ columns d)) as [Hin|Hin].
    + by rewrite decide_True.
    + rewrite decide_True; [done|]. apply elem_of_app. right. by left.
  - rewrite map_map. apply map_ext.
    intros r. rewrite lookup_total_insert_ne by done.
    by rewrite insert_insert_eq.
Qed.

Lemma with_segment_Purchase_Value d :
  "Purchase_Value" ∈ columns d ->
  Forall (fun r => is_float (r !!! "Purchase_Value")) (rows d) ->
  "Purchase_Value" ∈ columns (with_segment d) /\
  Forall (fun r => is_float (r !!! "Purchase_Value")) (rows (with_segment d)).
Proof.
  intros Hcol Hpv. unfold with_segment. cbn [columns rows]. split.
  - case_decide; [done|]. apply elem_of_app. by left.
  - apply Forall_map. eapply Forall_impl; [exact Hpv|].
    intros r Hr. cbn. by rewrite lookup_total_insert_ne.
Qed.

Lemma only_segment_changed_refl d : only_segment_changed d d.
Proof. split; [by left|]. by apply Forall_Forall2_diag, Forall_true. Qed.

Lemma only_segment_changed_with_segment d :
  only_segment_changed d (with_segment d).
Proof.
  unfold with_segment. split; cbn [columns rows].
  - case_decide; [by left|by right].
  - induction (rows d) as [|r rs IH]; constructor; [|done].
    intros name Hname. by rewrite lookup_insert_ne.
Qed.

Lemma df_segmentation_outcome observed d tr :
  df (segmentation_outcome observed d tr).2 = with_segment d.
Proof.
  unfold segmentation_outcome.
  by destruct (groupby_categorical_mean _ _ _ _ _).
Qed.

Lemma segmentation_outcome_trace observed d tr :
  exists out,
    trace (segmentation_outcome observed d tr).2 = tr ++ out /\
    forall tr', segmentation_outcome observed d tr'
                = ((segmentation_outcome observed d tr).1,
                   mkState (with_segment d) (tr' ++ out)).
Proof.
  unfold segmentation_outcome.
  destruct (groupby_categorical_mean _ _ _ _ _) as [seg|e].
  - by eexists.
  - exists []. rewrite app_nil_r. split; [done|].
    intros tr'. by rewrite app_nil_r.
Qed.

Lemma segmentation_twice observed : same_twice (segmentation observed).
Proof.
  intros [d tr].
  destruct (segmentation_cases observed d tr) as [(Hcol & Hpv & E)|[e E]].
  - destruct (with_segment_Purchase_Value d Hcol Hpv) as [Hcol' Hpv'].
    rewrite E.
    destruct (segmentation_outcome_trace observed d tr) as (out & Hout & Hany).
    exists out. rewrite (Hany tr). cbn [fst snd trace].
    rewrite (segmentation_run _ _ _ Hcol' Hpv').
    unfold segmentation_outcome at 1 3. rewrite with_segment_idemp.
    fold (segmentation_outcome observed d (tr ++ out)).
    by rewrite (Hany (tr ++ out)).
  - rewrite E. cbn [snd]. rewrite E. exists []. by rewrite app_nil_r.
Qed.

Lemma segmentation_twice_table observed s :
  df (segmentation observed (segmentation observed s).2).2
  = df (segmentation observed s).2.
Proof.
  destruct s as [d tr].
  destruct (segmentation_cases observed d tr) as [(Hcol & Hpv & E)|[e E]].
  - destruct (with_segment_Purchase_Value d Hcol Hpv) as [Hcol' Hpv'].
    rewrite E.
    pose proof (df_segmentation_outcome observed d tr) as Hdf.
    destruct (segmentation_outcome observed d tr) as [r [d1 tr1]].
    cbn [fst snd df] in *. subst d1.
    rewrite (segmentation_run _ _ _ Hcol' Hpv').
    by rewrite df_segmentation_outcome, with_segment_idemp.
  - rewrite E. cbn [snd]. by rewrite E.
Qed.

Lemma segmentation_frame observed s :
  only_segment_changed (df s) (df (segmentation observed s).2).
Proof.
  destruct s as [d tr].
  destruct (segmentation_cases observed d tr) as [(Hcol & Hpv & E)|[e E]];
    rewrite E.
  - rewrite df_segmentation_outcome. apply only_segment_changed_with_segment.
  - apply only_segment_changed_refl.
Qed.

(** C2, as amended.  The KPIs, the category filter and its rate, the return
    rate by category, the return rate by email engagement and the insights
    leave the table as it is, and give the same result when run again.  The
    segmentation does not leave the table as it is.  On a table whose
    [Purchase_Value] column is there and holds no text, line 104 assigns the
    column [Segment] of the global table: the column is added at the end
    when the table has none and stays where it is otherwise, and every row
    gets the label of its purchase value; on any other table line 104
    raises and the table stays as it was.  In both cases nothing but the
    column [Segment] changes.  Run again, the segmentation gives the same
    result and leaves the table as its first run left it.  "The same
    result" is the value returned and what is added to the page. *)
Theorem aggregations_frame argsort observed :
  (leaves_table kpis /\ same_twice kpis) /\
  (forall c, leaves_table (category_section c) /\
             same_twice (category_section c)) /\
  (forall cc cs, leaves_table (return_by_category cc cs) /\
                 same_twice (return_by_category cc cs)) /\
  (leaves_table return_by_email /\ same_twice return_by_email) /\
  (forall cat_df, leaves_table (insights argsort cat_df) /\
                  same_twice (insights argsort cat_df)) /\
  (forall s, only_segment_changed (df s) (df (segmentation observed s).2)) /\
  same_twice (segmentation observed) /\
  (forall s, df (segmentation observed (segmentation observed s).2).2
             = df (segmentation observed s).2) /\
  (forall d tr,
     "Purchase_Value" ∈ columns d ->
     Forall (fun r => is_float (r !!! "Purchase_Value")) (rows d) ->
     columns (df (segmentation observed (mkState d tr)).2)
     = (if decide ("Segment" ∈ columns d) then columns d
        else columns d ++ ["Segment"]) /\
     rows (df (segmentation observed (mkState d tr)).2)
     = map (fun r => <["Segment" := segment_cell (r !!! "Purchase_Value")]> r)
         (rows d)) /\
  (forall d tr,
     ~ ("Purchase_Value" ∈ columns d /\
        Forall (fun r => is_float (r !!! "Purchase_Value")) (rows d)) ->
     exists e, segmentation observed (mkState d tr) = (Raise e, mkState d tr)).
Proof.
  assert (forall A (m : M A), read_only m -> leaves_table m /\ same_twice m)
    as Hro.
  { intros A m H. split; [apply H|by apply read_only_same_twice]. }
  split; [apply Hro, read_only_kpis|].
  split; [intros c; apply Hro, read_only_category_section|].
  split; [intros cc cs; apply Hro, read_only_return_by_category|].
  split; [apply Hro, read_only_return_by_email|].
  split; [intros cat_df; apply Hro, read_only_insights|].
  split; [apply segmentation_frame|].
  split; [apply segmentation_twice|].
  split; [apply segmentation_twice_table|].
  split.
  - intros d tr Hcol Hpv. rewrite segmentation_run by done.
    by rewrite df_segmentation_outcome.
  - intros d tr Hnot.
    destruct (segmentation_cases observed d tr) as [(Hcol & Hpv & _)|H];
      [|exact H].
    destruct Hnot. by split.
Qed.

Lemma aggregations_frame_witness :
  columns (df (segmentation false (mkState sample [])).2)
  = ["Customer_ID"; "Purchase_Value"; "Email_Engagement"; "Return_Visit";
     "Category_Hair"; "Category_Spa"; "Segment"] /\
  rows (df (segmentation false (mkState sample [])).2)
  = map (fun r => <["Segment" := segment_cell (r !!! "Purchase_Value")]> r)
      (rows sample).
Proof.
  destruct (aggregations_frame stable_argsort false)
    as (_ & _ & _ & _ & _ & _ & _ & _ & H & _).
  apply (H sample []).
  - compute_done.
  - repeat constructor; by eexists.
Defined.

(** C2 as the specification has it: no aggregation changes the table.  The
    segmentation of the sample table adds a column to it. *)
Lemma aggregations_frame_counterexample :
  columns (df (segmentation false (mkState sample [])).2)
  = columns sample ++ ["Segment"] /\
  df (segmentation false (mkState sample [])).2 ≠ sample.
Proof. split; [reflexivity|]. intros H. by apply (f_equal columns) in H. Qed.

(** ** Return rate by category *)

Lemma dict_get_set {V} k (v : V) d : dict_get k (dict_set k v d) = Some v.
Proof.
  induction d as [|[k' v'] d IH]; cbn.
  - by rewrite decide_True.
  - destruct (decide (k = k')) as [->|Hne]; cbn.
    + by rewrite decide_True.
    + by rewrite decide_False.
Qed.

Lemma dict_get_set_ne {V} k k' (v : V) d :
  k' ≠ k -> dict_get k' (dict_set k v d) = dict_get k' d.
Proof.
  intros Hne. induction d as [|[k0 v0] d IH]; cbn.
  - by rewrite decide_False.
  - destruct (decide (k = k0)) as [->|Hk]; cbn.
    + by rewrite !decide_False.
    + by rewrite IH.
Qed.

Lemma dict_keys_set {V} k (v : V) d k' :
  k' ∈ dict_keys (dict_set k v d) <-> k' = k \/ k' ∈ dict_keys d.
Proof.
  unfold dict_keys. induction d as [|[k0 v0] d IH]; cbn.
  - set_solver.
  - destruct (decide (k = k0)) as [->|Hk]; cbn.
    + set_solver.
    + rewrite !elem_of_cons, IH. naive_solver.
Qed.

Lemma numeric_Ok (s : Series) :
  Forall is_float s -> exists qs, numeric s = Ok qs.
Proof.
  induction 1 as [|c s [f ->] _ [qs E]]; [by exists []|].
  destruct f as [q|]; cbn; rewrite E; by eexists.
Qed.

Lemma boolean_index_rows_Forall (P : gmap string cell -> Prop) rs mask :
  Forall P rs -> Forall P (boolean_index_rows rs mask).
Proof.
  intros H. revert mask.
  induction H as [|r rs Hr _ IH]; intros [|[] mask]; cbn; auto.
Qed.

Lemma boolean_index_rows_none (f : gmap string cell -> bool) rs :
  Forall (fun r => f r = false) rs ->
  boolean_index_rows rs (map f rs) = [].
Proof. induction 1 as [|r rs Hr _ IH]; cbn; [done|]. by rewrite Hr. Qed.

Lemma category_rate_Ok d col :
  "Return_Visit" ∈ columns d ->
  Forall (fun r => is_float (r !!! "Return_Visit")) (rows d) ->
  col ∈ columns d ->
  exists m, category_rate d col = Ok m /\
    (Forall (fun r => eq_num 1 (r !!! col) = false) (rows d) -> m = nan).
Proof.
  intros Hrv Hfl Hcol. unfold category_rate.
  rewrite (getitem_Ok _ _ Hcol). run.
  rewrite getitem_Ok by done. cbn [boolean_index rows].
  rewrite (map_map (fun r => r !!! col) (eq_num 1)).
  set (sub := boolean_index_rows _ _).
  destruct (numeric_Ok (map (fun r => r !!! "Return_Visit") sub)) as [qs E].
  { apply Forall_map. by apply boolean_index_rows_Forall. }
  exists (mean_of qs). unfold mean. rewrite E. split; [done|].
  intros Hnone. subst sub.
  rewrite (boolean_index_rows_none (fun r => eq_num 1 (r !!! col))) in E
    by done.
  by injection E as <-.
Qed.

Lemma cat_return_from_unfold d cat col pairs acc :
  cat_return_from d ((cat, col) :: pairs) acc
  = (m ← category_rate d col; cat_return_from d pairs (dict_set cat m acc)).
Proof.
  cbn [cat_return_from]. unfold category_rate. run.
  destruct (getitem d col); [|done].
  destruct (getitem _ "Return_Visit"); [|done].
  by destruct (mean _).
Qed.

Lemma cat_return_from_Ok d pairs acc :
  "Return_Visit" ∈ columns d ->
  Forall (fun r => is_float (r !!! "Return_Visit")) (rows d) ->
  Forall (fun p => p.2 ∈ columns d) pairs ->
  exists cr, cat_return_from d pairs acc = Ok cr /\
    (forall k, k ∈ dict_keys cr <-> k ∈ dict_keys acc \/ k ∈ pairs.*1) /\
    (forall cat, cat ∉ pairs.*1 -> dict_get cat cr = dict_get cat acc) /\
    (forall cat, cat ∈ pairs.*1 ->
       (forall col, (cat, col) ∈ pairs ->
          Forall (fun r => eq_num 1 (r !!! col) = false) (rows d)) ->
       dict_get cat cr = Some nan).
Proof.
  intros Hrv Hfl Hcols. revert acc.
  induction Hcols as [|[cat0 col0] pairs Hcol0 _ IH]; intros acc.
  - exists acc. split; [done|]. split_and!; [set_solver|done|set_solver].
  - rewrite cat_return_from_unfold.
    destruct (category_rate_Ok d col0 Hrv Hfl Hcol0) as (m & -> & Hm). run.
    destruct (IH (dict_set cat0 m acc)) as (cr & -> & Hkeys & Hout & Hin).
    exists cr. split; [done|]. split_and!.
    + intros k. rewrite Hkeys, dict_keys_set. cbn. rewrite elem_of_cons.
      naive_solver.
    + intros cat Hcat. cbn in Hcat. apply not_elem_of_cons in Hcat as [? ?].
      rewrite Hout by done. by apply dict_get_set_ne.
    + intros cat Hcat Hnone.
      destruct (decide (cat ∈ pairs.*1)) as [Hlater|Hlater].
      * apply Hin; [done|]. intros col Hcol. apply Hnone. by right.
      * cbn in Hcat. apply elem_of_cons in Hcat as [->|?]; [|done].
        rewrite Hout by done. rewrite dict_get_set. f_equal.
        apply Hm, Hnone. by left.
Qed.

Lemma fmap_is_map {A B} (f : A -> B) (l : list A) : f <$> l = map f l.
Proof. induction l; cbn; by f_equal. Qed.

Lemma zip_fmap_self {A B} (f : A -> B) (l : list A) :
  zip (map f l) l = map (fun a => (f a, a)) l.
Proof. induction l; cbn; by f_equal. Qed.

(** C3, as amended: an empty selection degrades to [nan], not to zero, and
    nothing flags it.  On a table with a numeric [Return_Visit] column the
    comprehension of lines 63-66 does not raise, its keys are exactly the
    categories, and a category none of whose rows has the indicator 1 is
    kept, with the rate [nan].  The return rate of an empty view is [nan]
    as well. *)
Theorem empty_selection_is_nan d :
  "Return_Visit" ∈ columns d ->
  Forall (fun r => is_float (r !!! "Return_Visit")) (rows d) ->
  (exists cat_return,
     cat_return_from d
       (zip (categories_of (category_cols_of d)) (category_cols_of d)) []
     = Ok cat_return /\
     (forall cat, cat ∈ dict_keys cat_return <->
                  cat ∈ categories_of (category_cols_of d)) /\
     (forall cat, cat ∈ categories_of (category_cols_of d) ->
        (forall col, col ∈ category_cols_of d ->
           replace col "Category_" EmptyString = cat ->
           Forall (fun r => eq_num 1 (r !!! col) = false) (rows d)) ->
        dict_get cat cat_return = Some nan)) /\
  (forall view, "Return_Visit" ∈ columns view -> rows view = [] ->
     filtered_return_rate view = Ok nan).
Proof.
  intros Hrv Hfl. split.
  - unfold categories_of. rewrite zip_fmap_self.
    set (pairs := map _ (category_cols_of d)).
    assert (pairs.*1 = map (fun c => replace c "Category_" EmptyString)
                           (category_cols_of d)) as Hfst.
    { subst pairs. by rewrite fmap_is_map, map_map. }
    destruct (cat_return_from_Ok d pairs [] Hrv Hfl)
      as (cr & E & Hkeys & _ & Hnan).
    { subst pairs. apply Forall_map, Forall_forall. intros c Hc. cbn.
      apply elem_of_category_cols_of in Hc. tauto. }
    exists cr. split; [done|]. rewrite <- Hfst. split.
    + intros cat. rewrite Hkeys. set_solver.
    + intros cat Hcat Hnone. apply Hnan; [done|].
      intros col Hcol. subst pairs.
      apply list_elem_of_fmap in Hcol as (c & [= -> ->] & Hc).
      by apply Hnone.
  - intros view Hcol Hrows. unfold filtered_return_rate.
    rewrite (getitem_Ok _ _ Hcol), Hrows. reflexivity.
Qed.

Lemma empty_selection_is_nan_witness :
  (exists cat_return,
     cat_return_from sample
       (zip (categories_of (category_cols_of sample)) (category_cols_of sample))
       [] = Ok cat_return /\
     (forall cat, cat ∈ dict_keys cat_return <->
                  cat ∈ categories_of (category_cols_of sample)) /\
     (forall cat, cat ∈ categories_of (category_cols_of sample) ->
        (forall col, col ∈ category_cols_of sample ->
           replace col "Category_" EmptyString = cat ->
           Forall (fun r => eq_num 1 (r !!! col) = false) (rows sample)) ->
        dict_get cat cat_return = Some nan)) /\
  (forall view, "Return_Visit" ∈ columns view -> rows view = [] ->
     filtered_return_rate view = Ok nan).
Proof.
  apply (empty_selection_is_nan sample).
  - compute_done.
  - repeat constructor; by eexists.
Defined.

(** C3 as the specification has it: the rate of a category without rows is
    0.  Nobody in the sample table bought from [Spa]: its rate in
    [cat_return] is [nan], and so is the return rate written for the view
    filtered by [Spa]. *)
Lemma empty_selection_counterexample :
  Forall (fun r => eq_num 1 (r !!! "Category_Spa") = false) (rows sample) /\
  (exists cat_return,
     cat_return_from sample
       (zip (categories_of (category_cols_of sample)) (category_cols_of sample))
       [] = Ok cat_return /\
     dict_get "Spa" cat_return = Some nan /\
     dict_get "Spa" cat_return ≠ Some (Fin 0)) /\
  (category_section "Spa" (mkState sample [])).2
  = mkState sample [write_return_rate nan] /\
  write_return_rate nan ≠ write_return_rate (Fin 0).
Proof.
  split; [repeat constructor|].
  split; [eexists; split; [reflexivity|by split]|].
  split; [reflexivity|done].
Qed.

(** ** The prediction tool on a customer that is found *)

Lemma eq_str_true cust_id c : eq_str cust_id c = true <-> c = Str cust_id.
Proof.
  destruct c as [f|s]; cbn; [naive_solver|].
  rewrite bool_decide_eq_true. naive_solver.
Qed.


Lemma boolean_index_rows_filter (f : gmap string cell -> bool) rs :
  boolean_index_rows rs (map f rs) = List.filter f rs.
Proof. induction rs as [|r rs IH]; cbn; [done|]. by rewrite IH. Qed.








(** Line 104 runs before the tool, and does not change what line 22 found. *)
Lemma category_cols_of_with_segment d :
  category_cols_of (with_segment d) = category_cols_of d.
Proof.
  unfold category_cols_of, with_segment. cbn [columns].
  case_decide; [done|]. rewrite List.filter_app. cbn. by rewrite app_nil_r.
Qed.

Section Lookup.
Variable predict_proba : DataFrame -> result (list (list Q)).


End Lookup.



(** The example of the specification: with the stub classifier the tool
    shows 0.8 (as 80 percent) for the first row of [C1], whose purchase
    value is 120. *)
Example lookup_with_stub_model :
  exists inputs features,
    trace (prediction_tool stub_model (category_cols_of prepared) "C1"
             (mkState prepared [])).2
    = [predict_proba_call inputs; success 80; info] /\
    rows inputs = [features] /\
    map (fun c => features !!! c) (columns inputs)
    = [Num 120; Str "Clicked"; Num 1; Num 2; Num 200; Num 100; Num 12; Num 5;
       Num 4; Num 1; Num 0].
Proof. do 2 eexists. split_and!; reflexivity. Qed.

(** ** The categories with the highest and the lowest rate *)


Lemma before_ties_last_spec v i j :
  before_ties_last v i j = true <-> ties_last_order v i j.
Proof.
  unfold before_ties_last, ties_last_order.
  rewrite orb_true_iff, andb_true_iff, Qltb_true, Qeq_bool_iff.
  by rewrite Nat.ltb_lt.
Qed.

Lemma insert_position_perm before i p :
  insert_position before i p ≡ₚ i :: p.
Proof.
  induction p as [|j p IH]; cbn; [done|].
  destruct (before i j); [done|]. rewrite IH. apply Permutation_swap.
Qed.

Lemma argsort_by_perm before v : argsort_by before v ≡ₚ seq 0 (length v).
Proof.
  unfold argsort_by. induction (seq 0 (length v)) as [|i l IH]; cbn; [done|].
  by rewrite insert_position_perm, IH.
Qed.

Section InsertionSort.
Context (before : nat -> nat -> bool) (R : relation nat).
Hypothesis before_spec : forall i j, before i j = true <-> R i j.
Hypothesis R_trans : forall i j k, R i j -> R j k -> R i k.
Hypothesis R_total : forall i j, i ≠ j -> R i j \/ R j i.

Lemma insert_position_sorted i p :
  i ∉ p -> StronglySorted R p ->
  StronglySorted R (insert_position before i p).
Proof.
  intros Hi Hp. induction Hp as [|j p Hp IH Hj]; cbn.
  - repeat constructor.
  - apply not_elem_of_cons in Hi as [Hij Hi].
    destruct (before i j) eqn:E.
    + apply before_spec in E. constructor; [by constructor|].
      constructor; [done|].
      eapply Forall_impl; [exact Hj|]. intros k Hk. by eapply R_trans.
    + assert (R j i) as Hji.
      { destruct (R_total i j Hij) as [H|H]; [|done].
        apply before_spec in H. congruence. }
      constructor; [by apply IH|].
      rewrite insert_position_perm. by constructor.
Qed.

Lemma foldr_insert_position_sorted l :
  NoDup l -> StronglySorted R (foldr (insert_position before) [] l).
Proof.
  induction 1 as [|i l Hi _ IH]; cbn; [constructor|].
  apply insert_position_sorted; [|done].
  intros Hin. apply Hi. revert Hin. clear.
  induction l as [|j l IH]; cbn; [done|].
  rewrite insert_position_perm. set_solver.
Qed.
End InsertionSort.

Lemma StronglySorted_weaken {A} (R R' : relation A) l :
  (forall x y, R x y -> R' x y) -> StronglySorted R l -> StronglySorted R' l.
Proof.
  intros H. induction 1 as [|x l _ IH Hx]; constructor; [done|].
  eapply Forall_impl; [exact Hx|]. auto.
Qed.


Lemma ties_last_argsort_sorted v :
  StronglySorted (ties_last_order v) (ties_last_argsort v).
Proof.
  unfold ties_last_argsort, argsort_by.
  apply (foldr_insert_position_sorted (before_ties_last v) (ties_last_order v)).
  - apply before_ties_last_spec.
  - unfold ties_last_order. intros i j k [?|[? ?]] [?|[? ?]];
      [left; lra|left; lra|left; lra|right; split; [lra|lia]].
  - unfold ties_last_order. intros i j Hij.
    destruct (Q_dec (value_at v i) (value_at v j)) as [[?|?]|?];
      [left; left; assumption|right; left; assumption|].
    destruct (decide (i < j)); [right|left]; right; split;
      [symmetry; assumption|lia|assumption|lia].
  - apply NoDup_seq.
Qed.


Lemma ties_last_argsort_sorts : argsort_sorts ties_last_argsort.
Proof.
  intros v. split; [apply argsort_by_perm|].
  eapply StronglySorted_weaken; [|apply ties_last_argsort_sorted].
  unfold ties_last_order. intros i j [?|[? ?]]; lra.
Qed.

(** *** The present values and their positions *)




Lemma elem_of_nan_idx_from i items k :
  k ∈ nan_idx_from i items <-> exists a, k = i + a /\ items !! a = Some nan.
Proof.
  revert i. induction items as [|[q'|] items IH]; intros i; cbn.
  - split; [by inversion 1|]. by intros (a & _ & ?).
  - rewrite IH. split.
    + intros (a & -> & Ha). exists (S a). split; [lia|done].
    + intros ([|a] & -> & Ha); cbn in Ha; [done|].
      exists a. split; [lia|done].
  - rewrite elem_of_cons, IH. split.
    + intros [->|(a & -> & Ha)].
      * exists 0. split; [lia|done].
      * exists (S a). split; [lia|done].
    + intros ([|a] & -> & Ha); cbn in Ha.
      * left. lia.
      * right. exists a. split; [lia|done].
Qed.








Section Nargsort.
Variable argsort : list Q -> list nat.
Hypothesis argsort_ok : argsort_sorts argsort.


End Nargsort.

Lemma zip_with_category_row categories rates :
  zip_with (fun a b => <["Return_Rate" := b]> (<["Category" := a]> ∅))
           (map Str categories) (map Flt rates)
  = zip_with category_row categories rates.
Proof.
  revert rates. induction categories as [|c cs IH]; intros [|f rs]; cbn;
    [done..|]. by rewrite IH.
Qed.

Lemma DataFrame_of_dict_inv categories rates cat_df :
  DataFrame_of_dict "Category" (map Str categories)
    "Return_Rate" (map Flt rates) = Ok cat_df ->
  length categories = length rates /\
  cat_df = mkDataFrame ["Category"; "Return_Rate"]
             (zip_with category_row categories rates).
Proof.
  unfold DataFrame_of_dict. rewrite !length_map.
  case_decide; [|done]. intros [= <-]. split; [done|].
  by rewrite zip_with_category_row.
Qed.

Lemma Return_Rate_column categories rates :
  length categories = length rates ->
  map (fun r => r !!! "Return_Rate") (zip_with category_row categories rates)
  = map Flt rates.
Proof.
  revert rates. induction categories as [|c cs IH]; intros [|f rs] Hlen;
    cbn in *; try done.
  f_equal. apply IH. lia.
Qed.

Lemma floats_Flt rates : floats (map Flt rates) = Ok rates.
Proof.
  unfold floats. induction rates as [|f rs IH]; cbn; [done|].
  by rewrite IH.
Qed.


Section TopAndLowest.
Variable argsort : list Q -> list nat.
Hypothesis argsort_ok : argsort_sorts argsort.


End TopAndLowest.



(** The tie-break the specification names needs a stable sort.
    [ties_last_argsort] sorts as numpy promises of every kind; with it, the
    insights on two tied categories name the second one, as the highest and
    as the lowest. *)
Example tie_break_needs_stability :
  argsort_sorts ties_last_argsort /\
  DataFrame_of_dict "Category" (map Str ["Hair"; "Spa"])
    "Return_Rate" (map Flt [Fin (1 # 2); Fin (1 # 2)]) = Ok tied_cat_df /\
  top_and_lowest ties_last_argsort tied_cat_df
  = Ok (category_row "Spa" (Fin (1 # 2)), category_row "Spa" (Fin (1 # 2))) /\
  category_row "Spa" (Fin (1 # 2)) ≠ category_row "Hair" (Fin (1 # 2)).
Proof.
  split; [apply ties_last_argsort_sorts|].
  split; [reflexivity|]. split; [reflexivity|].
  intros H. apply (f_equal (fun r => r !! "Category")) in H.
  by vm_compute in H.
Qed.

(** With a stable [argsort] the same two categories give the first one. *)
Example top_and_lowest_stable_ties :
  top_and_lowest stable_argsort tied_cat_df
  = Ok (category_row "Hair" (Fin (1 # 2)), category_row "Hair" (Fin (1 # 2))).
Proof. reflexivity. Qed.

Lemma take_positions_nil {A} (ix : list nat) : take_positions (@nil A) ix = [].
Proof. unfold take_positions. by induction ix. Qed.

(** A table without category columns: [cat_df] has no rows and line 84
    raises. *)
Lemma top_and_lowest_no_categories argsort :
  top_and_lowest argsort (mkDataFrame ["Category"; "Return_Rate"] [])
  = Raise IndexError.
Proof.
  unfold top_and_lowest, sort_values.
  rewrite getitem_Ok by (cbn; set_solver). cbn [rows map]. run.
  change (floats []) with (floats (map Flt [])). rewrite floats_Flt. run.
  by rewrite !take_positions_nil.
Qed.

(** ** One run of the whole script *)

(** The script on the table [prepared], with the filter at ["All"] and the
    identifier [C1]: it ends normally, the table has gained the column
    [Segment], and the page ends with the prediction for the first row of
    [C1]. *)
Example dashboard_run :
  let run := dashboard stable_argsort stub_model false "All" "C1"
               (mkState prepared []) in
  run.1 = Ok tt /\
  df run.2 = with_segment prepared /\
  take 5 (trace run.2)
  = [metric "Total Customers" (Fin 3);
     metric "Overall Return Rate" (Fin (100 # 3));
     metric "Avg Purchase Value" (Fin 80);
     metric "Email Click Rate" (Fin (100 # 3));
     write_return_rate (Fin (100 # 3))] /\
  drop 10 (trace run.2) = [success 80; info].
Proof. cbv zeta. split_and!; reflexivity. Qed.

(** ** The frame of rates, when the categories are distinct *)

Lemma dict_set_fresh {V} k (v : V) d :
  k ∉ dict_keys d -> dict_set k v d = d ++ [(k, v)].
Proof.
  unfold dict_keys. induction d as [|[k' v'] d IH]; cbn; [done|].
  intros Hk. apply not_elem_of_cons in Hk as [Hne Hk].
  rewrite decide_False by done. by rewrite IH.
Qed.

(** With distinct categories the dict of lines 63-66 lists the categories in
    the order of the table, each with the rate of its column. *)
Lemma cat_return_from_distinct d pairs acc :
  "Return_Visit" ∈ columns d ->
  Forall (fun r => is_float (r !!! "Return_Visit")) (rows d) ->
  Forall (fun p => p.2 ∈ columns d) pairs ->
  NoDup (dict_keys acc ++ pairs.*1) ->
  exists rates,
    cat_return_from d pairs acc = Ok (acc ++ zip pairs.*1 rates) /\
    Forall2 (fun p m => category_rate d p.2 = Ok m) pairs rates.
Proof.
  intros Hrv Hfl Hcols. revert acc.
  induction Hcols as [|[cat col] pairs Hcol _ IH]; intros acc Hnd.
  - exists []. cbn. by rewrite app_nil_r.
  - rewrite cat_return_from_unfold.
    destruct (category_rate_Ok d col Hrv Hfl Hcol) as (m & Em & _).
    rewrite Em. run. cbn in Hnd.
    apply NoDup_app in Hnd as (Hacc & Hdisj & Hps).
    apply NoDup_cons in Hps as [Hcat Hps].
    assert (cat ∉ dict_keys acc) as Hfresh.
    { intros Hin. apply (Hdisj _ Hin). by left. }
    rewrite dict_set_fresh by done.
    destruct (IH (acc ++ [(cat, m)])) as (rates & E & Hrates).
    { unfold dict_keys. rewrite fmap_app. cbn. rewrite <- app_assoc. cbn.
      apply NoDup_app. split_and!; [done| |by apply NoDup_cons].
      intros k Hk Hk'. apply elem_of_cons in Hk' as [->|Hk']; [done|].
      apply (Hdisj _ Hk). by right. }
    exists (m :: rates). rewrite E. cbn. rewrite <- app_assoc. split; [done|].
    by constructor.
Qed.

(** Lines 63-71 on a table with a numeric [Return_Visit] column and
    distinct categories: the section does not raise, and [cat_df] has one
    row per category, in the order of the table, with the rate of its
    column. *)
Lemma return_by_category_run d tr :
  "Return_Visit" ∈ columns d ->
  Forall (fun r => is_float (r !!! "Return_Visit")) (rows d) ->
  NoDup (categories_of (category_cols_of d)) ->
  exists rates cat_df,
    Forall2 (fun col m => category_rate d col = Ok m)
            (category_cols_of d) rates /\
    DataFrame_of_dict "Category" (map Str (categories_of (category_cols_of d)))
      "Return_Rate" (map Flt rates) = Ok cat_df /\
    return_by_category (category_cols_of d)
      (categories_of (category_cols_of d)) (mkState d tr)
    = (Ok (zip (categories_of (category_cols_of d)) rates, cat_df),
       mkState d (tr ++ [plotly_chart "Return Rate by Category" cat_df])).
Proof.
  intros Hrv Hfl Hnd.
  set (cc := category_cols_of d) in *. set (cs := categories_of cc) in *.
  destruct (cat_return_from_distinct d (zip cs cc) [] Hrv Hfl)
    as (rates & E & Hrates).
  { subst cs. unfold categories_of. rewrite zip_fmap_self.
    apply Forall_map, Forall_forall. intros c Hc. cbn.
    apply elem_of_category_cols_of in Hc. tauto. }
  { cbn. subst cs. unfold categories_of. rewrite zip_fmap_self.
    by rewrite fmap_is_map, map_map. }
  assert ((zip cs cc).*1 = cs) as Hfst.
  { subst cs. unfold categories_of. rewrite zip_fmap_self.
    by rewrite fmap_is_map, map_map. }
  assert (Forall2 (fun col m => category_rate d col = Ok m) cc rates) as Hr.
  { subst cs. unfold categories_of in Hrates. rewrite zip_fmap_self in Hrates.
    apply Forall2_fmap_l in Hrates. exact Hrates. }
  rewrite Hfst in E. cbn [app] in E.
  pose proof (Forall2_length _ _ _ Hr) as Hlen.
  assert (length cs = length rates) as Hlen'.
  { subst cs. unfold categories_of. by rewrite length_map. }
  exists rates.
  exists (mkDataFrame ["Category"; "Return_Rate"]
            (zip_with category_row cs rates)).
  assert (DataFrame_of_dict "Category" (map Str cs) "Return_Rate"
            (map Flt rates)
          = Ok (mkDataFrame ["Category"; "Return_Rate"]
                  (zip_with category_row cs rates))) as Edf.
  { unfold DataFrame_of_dict. rewrite !length_map.
    rewrite decide_True by done. by rewrite zip_with_category_row. }
  split_and!; [done..|].
  unfold return_by_category. run. rewrite E.
  assert (dict_values (zip cs rates) = rates) as ->.
  { unfold dict_values. apply snd_zip. lia. }
  by rewrite Edf.
Qed.

(** * Further properties of the script *)

(** ** Categories found and categories filtered (lines 22-23 and 48-50) *)

Lemma replace_from_no_occurrence old new s :
  contains old s = false -> replace_from old new 0 s = s.
Proof.
  induction s as [|c s IH]; [done|]. cbn [contains replace_from].
  intros H. apply orb_false_iff in H as [Hp Hs].
  rewrite Hp. by rewrite IH.
Qed.

Lemma replace_Category_prefix name :
  replace ("Category_" +:+ name) "Category_" EmptyString
  = replace_from "Category_" EmptyString 0 name.
Proof. unfold replace. cbn. by destruct name. Qed.

Lemma category_of_column name :
  contains "Category_" name = false ->
  replace ("Category_" +:+ name) "Category_" EmptyString = name.
Proof.
  intros H. rewrite replace_Category_prefix.
  by apply replace_from_no_occurrence.
Qed.

Lemma category_filter_column name d tr :
  name ≠ "All" ->
  ("Category_" +:+ name) ∈ columns d ->
  category_filter name (mkState d tr)
  = (Ok (mkDataFrame (columns d) (rows_of_category d ("Category_" +:+ name))),
     mkState d tr).
Proof.
  intros Hall Hcol. unfold category_filter. run.
  rewrite bool_decide_true by done. rewrite copy_eq.
  rewrite (getitem_Ok _ _ Hcol). unfold boolean_index.
  rewrite (map_map (fun r => r !!! ("Category_" +:+ name)) (eq_num 1)).
  by rewrite (boolean_index_rows_filter
                (fun r => eq_num 1 (r !!! ("Category_" +:+ name)))).
Qed.

(** X1: a category that line 23 finds can be filtered.  For a column
    [Category_<name>] whose [name] does not contain the prefix again and is
    not the sentinel, line 23 gives the category [name], and filtering by it
    returns, with the columns of the table, exactly the rows whose
    indicator in that column is 1, in load order; the table stays as it
    was. *)
Theorem found_category_filters_its_column name d tr :
  ("Category_" +:+ name) ∈ columns d ->
  contains "Category_" name = false ->
  name ≠ "All" ->
  ("Category_" +:+ name) ∈ category_cols_of d /\
  replace ("Category_" +:+ name) "Category_" EmptyString = name /\
  name ∈ categories_of (category_cols_of d) /\
  category_filter name (mkState d tr)
  = (Ok (mkDataFrame (columns d) (rows_of_category d ("Category_" +:+ name))),
     mkState d tr).
Proof.
  intros Hcol Hname Hall.
  assert (("Category_" +:+ name) ∈ category_cols_of d) as Hcat.
  { apply elem_of_category_cols_of. split; [done|apply startswith_Category]. }
  split_and!; [done|by apply category_of_column| |by apply category_filter_column].
  unfold categories_of. rewrite <- fmap_is_map. apply list_elem_of_fmap.
  exists ("Category_" +:+ name). split; [|done].
  symmetry. by apply category_of_column.
Qed.

Lemma found_category_filters_its_column_witness :
  ("Category_" +:+ "Hair") ∈ category_cols_of sample /\
  replace ("Category_" +:+ "Hair") "Category_" EmptyString = "Hair" /\
  "Hair" ∈ categories_of (category_cols_of sample) /\
  category_filter "Hair" (mkState sample [])
  = (Ok (mkDataFrame (columns sample)
           (rows_of_category sample ("Category_" +:+ "Hair"))),
     mkState sample []).
Proof.
  apply (found_category_filters_its_column "Hair" sample []).
  - compute_done.
  - reflexivity.
  - done.
Defined.

(** ** The rate of a category, computed twice (line 53 and lines 63-66) *)

Lemma dict_get_zip {V} (ks : list string) (vs : list V) i k v :
  NoDup ks -> ks !! i = Some k -> vs !! i = Some v ->
  dict_get k (zip ks vs) = Some v.
Proof.
  intros Hnd. revert i vs.
  induction Hnd as [|k0 ks Hk0 _ IH]; intros i vs Hk Hv; [done|].
  destruct vs as [|v0 vs]; [by destruct i|].
  destruct i as [|i]; cbn in *.
  - injection Hk as ->. injection Hv as ->. by rewrite decide_True.
  - rewrite decide_False; [by eapply IH|].
    intros ->. apply Hk0. by eapply list_elem_of_lookup_2.
Qed.

Lemma filtered_return_rate_of_category d col :
  col ∈ columns d ->
  filtered_return_rate (mkDataFrame (columns d) (rows_of_category d col))
  = (m ← category_rate d col; Ok (fmul m 100)).
Proof.
  intros Hcol. unfold filtered_return_rate, category_rate, rows_of_category.
  rewrite (getitem_Ok _ _ Hcol). run. unfold boolean_index.
  rewrite (map_map (fun r => r !!! col) (eq_num 1)).
  rewrite (boolean_index_rows_filter (fun r => eq_num 1 (r !!! col))).
  destruct (getitem _ "Return_Visit") as [rv|e]; [|done].
  by destruct (mean rv).
Qed.

(** X2: the two computations of a category's return rate agree.  On a table
    with a numeric [Return_Visit] column and distinct categories, take a
    column [Category_<name>] whose [name] is not the sentinel ["All"] and
    does not contain the prefix [Category_] again.  Then [name] is a key of
    [cat_return], and the rate that line 53 writes when [name] is selected
    is 100 times the rate that lines 63-66 store for it. *)
Theorem filtered_rate_agrees_with_cat_return name d tr :
  "Return_Visit" ∈ columns d ->
  Forall (fun r => is_float (r !!! "Return_Visit")) (rows d) ->
  NoDup (categories_of (category_cols_of d)) ->
  ("Category_" +:+ name) ∈ columns d ->
  contains "Category_" name = false ->
  name ≠ "All" ->
  exists m cat_return cat_df,
    (return_by_category (category_cols_of d)
       (categories_of (category_cols_of d)) (mkState d tr)).1
    = Ok (cat_return, cat_df) /\
    dict_get name cat_return = Some m /\
    category_section name (mkState d tr)
    = (Ok tt, mkState d (tr ++ [write_return_rate (fmul m 100)])).
Proof.
  intros Hrv Hfl Hnd Hcol Hname Hall.
  destruct (return_by_category_run d tr Hrv Hfl Hnd)
    as (rates & cat_df & Hrates & _ & Erun).
  assert (("Category_" +:+ name) ∈ category_cols_of d) as Hcat.
  { apply elem_of_category_cols_of. split; [done|apply startswith_Category]. }
  apply list_elem_of_lookup_1 in Hcat as [i Hi].
  destruct (Forall2_lookup_l _ _ _ _ _ Hrates Hi) as (m & Hm & Erate).
  exists m, (zip (categories_of (category_cols_of d)) rates), cat_df.
  split_and!.
  - by rewrite Erun.
  - apply (dict_get_zip _ _ i); [done| |done].
    unfold categories_of. rewrite <- fmap_is_map, list_lookup_fmap, Hi. cbn.
    f_equal. by apply category_of_column.
  - unfold category_section. unfold mbind at 1, M_bind.
    rewrite (category_filter_column _ _ _ Hall Hcol).
    unfold mbind, M_bind, lift.
    rewrite (filtered_return_rate_of_category _ _ Hcol), Erate. done.
Qed.

Lemma filtered_rate_agrees_with_cat_return_witness :
  exists m cat_return cat_df,
    (return_by_category (category_cols_of sample)
       (categories_of (category_cols_of sample)) (mkState sample [])).1
    = Ok (cat_return, cat_df) /\
    dict_get "Hair" cat_return = Some m /\
    category_section "Hair" (mkState sample [])
    = (Ok tt, mkState sample [write_return_rate (fmul m 100)]).
Proof.
  apply (filtered_rate_agrees_with_cat_return "Hair" sample []).
  - compute_done.
  - repeat constructor; by eexists.
  - compute_done.
  - compute_done.
  - reflexivity.
  - done.
Defined.

(** ** Two columns with the same category (line 67) *)

Lemma dict_set_keys_NoDup {V} k (v : V) d :
  NoDup (dict_keys d) -> NoDup (dict_keys (dict_set k v d)).
Proof.
  unfold dict_keys. induction d as [|[k' v'] d IH]; cbn; intros Hnd.
  - repeat constructor. set_solver.
  - apply NoDup_cons in Hnd as [Hk' Hnd].
    destruct (decide (k = k')) as [->|Hne]; cbn.
    + by apply NoDup_cons.
    + apply NoDup_cons. split; [|by apply IH].
      intros Hin. apply (dict_keys_set k v d k') in Hin as [->|Hin]; done.
Qed.

Lemma cat_return_from_keys_NoDup d pairs acc cr :
  NoDup (dict_keys acc) -> cat_return_from d pairs acc = Ok cr ->
  NoDup (dict_keys cr).
Proof.
  revert acc. induction pairs as [|[cat col] pairs IH]; intros acc Hnd.
  - by intros [= <-].
  - rewrite cat_return_from_unfold.
    destruct (category_rate d col) as [m|e]; [|done]. cbn.
    apply IH. by apply dict_set_keys_NoDup.
Qed.

Lemma NoDup_shorter {A} (k l : list A) :
  NoDup k -> (forall x, x ∈ k <-> x ∈ l) -> ~ NoDup l -> length k < length l.
Proof.
  intros Hk Hkl Hl.
  assert (k ⊆+ l) as Hsub by (apply NoDup_submseteq; [done|apply Hkl]).
  pose proof (submseteq_length _ _ Hsub) as Hle.
  destruct (decide (length l ≤ length k)) as [Hge|]; [|lia].
  destruct Hl. rewrite <- (submseteq_length_Permutation _ _ Hsub Hge). done.
Qed.

Lemma cat_return_keys d :
  "Return_Visit" ∈ columns d ->
  Forall (fun r => is_float (r !!! "Return_Visit")) (rows d) ->
  exists cr,
    cat_return_from d
      (zip (categories_of (category_cols_of d)) (category_cols_of d)) []
    = Ok cr /\
    forall cat, cat ∈ dict_keys cr <-> cat ∈ categories_of (category_cols_of d).
Proof.
  intros Hrv Hfl. unfold categories_of. rewrite zip_fmap_self.
  set (pairs := map _ (category_cols_of d)).
  assert (pairs.*1 = map (fun c => replace c "Category_" EmptyString)
                         (category_cols_of d)) as Hfst.
  { subst pairs. by rewrite fmap_is_map, map_map. }
  destruct (cat_return_from_Ok d pairs [] Hrv Hfl) as (cr & E & Hkeys & _).
  { subst pairs. apply Forall_map, Forall_forall. intros c Hc. cbn.
    apply elem_of_category_cols_of in Hc. tauto. }
  exists cr. split; [done|]. rewrite <- Hfst.
  intros cat. rewrite Hkeys. set_solver.
Qed.

(** X3: the frame of line 67 can be built exactly when the categories are
    distinct.  On a table with a numeric [Return_Visit] column, the section
    of lines 63-71 raises [ValueError] if and only if two category columns
    give the same category (the dict of lines 63-66 then has fewer values
    than there are categories); when it raises, nothing was rendered and
    the table is as it was. *)
Theorem return_by_category_duplicates d tr :
  "Return_Visit" ∈ columns d ->
  Forall (fun r => is_float (r !!! "Return_Visit")) (rows d) ->
  (~ NoDup (categories_of (category_cols_of d)) <->
   return_by_category (category_cols_of d)
     (categories_of (category_cols_of d)) (mkState d tr)
   = (Raise ValueError, mkState d tr)).
Proof.
  intros Hrv Hfl. split.
  - intros Hdup.
    destruct (cat_return_keys d Hrv Hfl) as (cr & E & Hkeys).
    assert (NoDup (dict_keys cr)) as Hnd.
    { eapply (cat_return_from_keys_NoDup _ _ []); [apply NoDup_nil_2|exact E]. }
    pose proof (NoDup_shorter _ _ Hnd Hkeys Hdup) as Hlen.
    unfold return_by_category. run. rewrite E.
    unfold DataFrame_of_dict. rewrite !length_map.
    rewrite decide_False; [done|].
    unfold dict_values, dict_keys in *. rewrite !length_fmap in *. lia.
  - intros E Hnd.
    destruct (return_by_category_run d tr Hrv Hfl Hnd) as (? & ? & _ & _ & E').
    rewrite E' in E. done.
Qed.

Lemma return_by_category_duplicates_witness :
  ~ NoDup (categories_of (category_cols_of same_category)) <->
  return_by_category (category_cols_of same_category)
    (categories_of (category_cols_of same_category)) (mkState same_category [])
  = (Raise ValueError, mkState same_category []).
Proof.
  apply (return_by_category_duplicates same_category []).
  - compute_done.
  - repeat constructor; by eexists.
Defined.

(** ** The KPIs (lines 28-38) *)

Lemma kpis_cases s :
  (exists e, kpis s = (Raise e, s)) \/
  (exists overall avg click,
     kpis s = (Ok tt, mkState (df s)
                        (trace s ++ kpi_metrics (df s) overall avg click))).
Proof.
  destruct s as [d tr]. unfold kpis. run.
  destruct (getitem d "Return_Visit") as [rv|e]; [|left; by eexists].
  destruct (mean rv) as [m|e]; [|left; by eexists].
  destruct (getitem d "Purchase_Value") as [pv|e]; [|left; by eexists].
  destruct (mean pv) as [avg|e]; [|left; by eexists].
  destruct (getitem d "Email_Engagement") as [ee|e]; [|left; by eexists].
  right. do 3 eexists. unfold kpi_metrics. by rewrite <- !app_assoc.
Qed.

(** X4: the KPIs are rendered all four or not at all.  Lines 28-31 compute
    the four values before line 35 renders the first one, so when one of
    the three columns is missing, or a mean cannot be taken, the section
    raises with nothing rendered; otherwise it adds exactly the four
    metrics, the first being the number of rows. *)
Theorem kpis_all_or_nothing s :
  (exists e, kpis s = (Raise e, s)) \/
  (exists overall avg click,
     kpis s = (Ok tt, mkState (df s)
                        (trace s ++ kpi_metrics (df s) overall avg click))).
Proof. apply kpis_cases. Qed.

Lemma Qsum_indicator (bs : list bool) :
  (Qsum (map (fun b : bool => if b then 1 else 0) bs)
   == inject_Z (Z.of_nat (length (List.filter (fun b => b) bs))))%Q.
Proof.
  induction bs as [|[] bs IH]; cbn [map Qsum foldr List.filter length].
  - reflexivity.
  - fold (Qsum (map (fun b : bool => if b then 1%Q else 0%Q) bs)).
    rewrite IH, Nat2Z.inj_succ, <- Z.add_1_r, inject_Z_plus.
    change (inject_Z 1) with 1%Q. lra.
  - fold (Qsum (map (fun b : bool => if b then 1%Q else 0%Q) bs)).
    rewrite IH. lra.
Qed.

Lemma filter_id_map {A} (f : A -> bool) (l : list A) :
  length (List.filter (fun b => b) (map f l)) = length (List.filter f l).
Proof.
  induction l as [|a l IH]; [done|]. cbn.
  destruct (f a); cbn; by rewrite IH.
Qed.

Lemma filter_length_le {A} (f : A -> bool) (l : list A) :
  length (List.filter f l) <= length l.
Proof. induction l as [|a l IH]; cbn; [done|]. destruct (f a); cbn; lia. Qed.

(** X5: the email click rate counts every row.  On a non-empty table with
    the three KPI columns, the numeric ones without strings, the section
    succeeds and the click rate it renders is 100 times the number of rows
    whose engagement is ["Clicked"] over the number of all rows (a row with
    a missing engagement counts as not clicked), so it lies in [0,100]. *)
Theorem email_click_rate d tr :
  "Return_Visit" ∈ columns d ->
  Forall (fun r => is_float (r !!! "Return_Visit")) (rows d) ->
  "Purchase_Value" ∈ columns d ->
  Forall (fun r => is_float (r !!! "Purchase_Value")) (rows d) ->
  "Email_Engagement" ∈ columns d ->
  rows d ≠ [] ->
  exists overall avg p,
    kpis (mkState d tr)
    = (Ok tt, mkState d (tr ++ kpi_metrics d overall avg (Fin p))) /\
    (p == 100 * inject_Z (Z.of_nat (clicked d))
          / inject_Z (Z.of_nat (shape0 d)))%Q /\
    (0 <= p <= 100)%Q.
Proof.
  intros Hrv Hrvf Hpv Hpvf Hee Hne.
  destruct (numeric_Ok (map (fun r => r !!! "Return_Visit") (rows d)))
    as [qs1 E1]; [by apply Forall_map|].
  destruct (numeric_Ok (map (fun r => r !!! "Purchase_Value") (rows d)))
    as [qs2 E2]; [by apply Forall_map|].
  set (bs := map (eq_str "Clicked")
               (map (fun r => r !!! "Email_Engagement") (rows d))).
  assert (length bs = shape0 d) as Hlen by (subst bs; by rewrite !length_map).
  assert (length (List.filter (fun b => b) bs) = clicked d) as Hclicked.
  { subst bs. rewrite (map_map (fun r => r !!! "Email_Engagement")).
    apply (filter_id_map (fun r => eq_str "Clicked" (r !!! "Email_Engagement"))). }
  assert (0 < inject_Z (Z.of_nat (shape0 d)))%Q as Hpos.
  { change 0%Q with (inject_Z 0). rewrite <- Zlt_Qlt. unfold shape0.
    destruct (rows d); [done|]. cbn [length]. lia. }
  assert (inject_Z (Z.of_nat (clicked d)) <= inject_Z (Z.of_nat (shape0 d)))%Q
    as Hle.
  { rewrite <- Zle_Qle. apply inj_le. unfold clicked, shape0.
    apply filter_length_le. }
  assert (0 <= inject_Z (Z.of_nat (clicked d)))%Q as Hge.
  { change 0%Q with (inject_Z 0). rewrite <- Zle_Qle. lia. }
  assert (exists q, mean_bool bs = Fin q /\
            (q == inject_Z (Z.of_nat (clicked d))
                  / inject_Z (Z.of_nat (shape0 d)))%Q) as (q & Eq & Hq).
  { unfold mean_bool, mean_of.
    destruct (map _ bs) as [|x xs] eqn:Em.
    { apply (f_equal length) in Em. rewrite length_map, Hlen in Em.
      unfold shape0 in Em. by destruct (rows d). }
    eexists. split; [reflexivity|]. rewrite Qred_correct, <- Em.
    by rewrite Qsum_indicator, length_map, Hclicked, Hlen. }
  assert (0 <= q <= 1)%Q as Hq01.
  { rewrite Hq. split.
    - apply Qle_shift_div_l; [done|]. lra.
    - apply Qle_shift_div_r; [done|]. lra. }
  exists (fmul (mean_of qs1) 100), (mean_of qs2), (Qred (q * 100)).
  split_and!.
  - unfold kpis, mean. run. rewrite !getitem_Ok by done. rewrite E1, E2.
    fold bs. rewrite Eq. unfold kpi_metrics. cbn [fmul].
    by rewrite <- !app_assoc.
  - rewrite Qred_correct, Hq. field. lra.
  - rewrite Qred_correct. lra.
  - rewrite Qred_correct. lra.
Qed.

Lemma email_click_rate_witness :
  exists overall avg p,
    kpis (mkState prepared [])
    = (Ok tt, mkState prepared ([] ++ kpi_metrics prepared overall avg (Fin p)))
    /\
    (p == 100 * inject_Z (Z.of_nat (clicked prepared))
          / inject_Z (Z.of_nat (shape0 prepared)))%Q /\
    (0 <= p <= 100)%Q.
Proof.
  apply (email_click_rate prepared []).
  - compute_done.
  - repeat constructor; by eexists.
  - compute_done.
  - repeat constructor; by eexists.
  - compute_done.
  - done.
Defined.

(** ** When every rate is missing (lines 84-85) *)

Lemma non_nan_from_all_nan i items :
  Forall (fun f => f = nan) items -> non_nan_from i items = [].
Proof.
  intros H. revert i. induction H as [|f items -> _ IH]; intros i; cbn; auto.
Qed.

Lemma nan_idx_from_all_nan i items :
  Forall (fun f => f = nan) items ->
  nan_idx_from i items = seq i (length items).
Proof.
  intros H. revert i. induction H as [|f items -> _ IH]; intros i; cbn;
    [done|]. by rewrite IH.
Qed.

Lemma nargsort_all_nan argsort items ascending :
  Forall (fun f => f = nan) items ->
  nargsort argsort items ascending = seq 0 (length items).
Proof.
  intros H. unfold nargsort, non_nan, nan_idx.
  rewrite (non_nan_from_all_nan _ _ H), (nan_idx_from_all_nan _ _ H).
  destruct ascending; cbv zeta.
  - change ((@nil (nat * Q)).*1) with (@nil nat).
    by rewrite take_positions_nil.
  - change ((reverse (@nil (nat * Q))).*1) with (@nil nat).
    by rewrite take_positions_nil.
Qed.

Lemma sort_values_cat_df_any argsort categories rates ascending :
  length categories = length rates ->
  sort_values argsort
    (mkDataFrame ["Category"; "Return_Rate"]
       (zip_with category_row categories rates))
    "Return_Rate" ascending
  = Ok (mkDataFrame ["Category"; "Return_Rate"]
          (take_positions (zip_with category_row categories rates)
             (nargsort argsort rates ascending))).
Proof.
  intros Hlen. unfold sort_values.
  rewrite getitem_Ok by (cbn; set_solver). cbn [rows columns]. run.
  by rewrite Return_Rate_column, floats_Flt.
Qed.

(** X6: when no category has a rate, the insights name the first category
    twice.  If every rate in [cat_df] is missing (no row has any indicator
    equal to 1, or the table is empty) and there is at least one category,
    lines 84-85 return the first category of the table, with the rate
    [nan], as the highest and as the lowest, whatever [argsort] does. *)
Theorem top_and_lowest_all_missing argsort c categories rates cat_df :
  DataFrame_of_dict "Category" (map Str (c :: categories))
    "Return_Rate" (map Flt rates) = Ok cat_df ->
  Forall (fun f => f = nan) rates ->
  top_and_lowest argsort cat_df
  = Ok (category_row c nan, category_row c nan).
Proof.
  intros Hdf Hnan. apply DataFrame_of_dict_inv in Hdf as [Hlen ->].
  unfold top_and_lowest. rewrite !sort_values_cat_df_any by done.
  rewrite !nargsort_all_nan by done.
  destruct rates as [|f rates]; [done|].
  apply Forall_cons in Hnan as [-> _]. run. reflexivity.
Qed.

Lemma top_and_lowest_all_missing_witness :
  top_and_lowest ties_last_argsort
    (mkDataFrame ["Category"; "Return_Rate"]
       [category_row "Hair" nan; category_row "Spa" nan])
  = Ok (category_row "Hair" nan, category_row "Hair" nan).
Proof.
  apply (top_and_lowest_all_missing ties_last_argsort "Hair" ["Spa"]
           [nan; nan]).
  - reflexivity.
  - by repeat constructor.
Defined.

(** ** What a run does to the table and to the classifier *)

Lemma silent_bind {A B} (m : M A) (f : A -> M B) :
  silent m -> (forall a, silent (f a)) -> silent (m ≫= f).
Proof.
  intros Hm Hf s. unfold mbind, M_bind. specialize (Hm s).
  destruct (m s) as [[a|e] s']; [|done].
  cbn in Hm. rewrite <- Hm. apply (Hf a).
Qed.

Lemma silent_ret {A} (a : A) : silent (mret a : M A).
Proof. done. Qed.

Lemma silent_lift {A} (r : result A) : silent (lift r).
Proof. done. Qed.

Lemma silent_read_df : silent read_df.
Proof. done. Qed.

Lemma silent_write_df d : silent (write_df d).
Proof. done. Qed.

Lemma calls_app tr tr' : calls (tr ++ tr') = calls tr ++ calls tr'.
Proof. unfold calls. apply omap_app. Qed.

Lemma silent_render e :
  (forall inputs, e ≠ predict_proba_call inputs) -> silent (render e).
Proof.
  intros He s. unfold render. cbn. rewrite calls_app.
  destruct e as [l v|p|t dt|tp lw|i|p|]; cbn; try by rewrite app_nil_r.
  by destruct (He i).
Qed.

Create HintDb silent.
#[export] Hint Resolve silent_ret silent_lift silent_read_df silent_write_df
  : silent.

Ltac solve_silent :=
  repeat first
    [ apply silent_bind; [|intros ?]
    | solve [auto with silent]
    | solve [apply silent_render; intros ?; discriminate]
    | match goal with |- silent (if ?b then _ else _) => destruct b end ].

Lemma silent_kpis : silent kpis.
Proof. unfold kpis. solve_silent. Qed.

Lemma silent_category_section c : silent (category_section c).
Proof. unfold category_section, category_filter. solve_silent. Qed.

Lemma silent_return_by_category cc cs : silent (return_by_category cc cs).
Proof. unfold return_by_category. solve_silent. Qed.

Lemma silent_return_by_email : silent return_by_email.
Proof. unfold return_by_email. solve_silent. Qed.

Lemma silent_insights argsort cat_df : silent (insights argsort cat_df).
Proof. unfold insights. solve_silent. Qed.

Lemma silent_segmentation observed : silent (segmentation observed).
Proof. unfold segmentation. solve_silent. Qed.

Lemma getitem_list_inv d names r :
  getitem_list d names = Ok r ->
  r = mkDataFrame names (map (restrict names) (rows d)).
Proof.
  unfold getitem_list. destruct (List.find _ names); [done|].
  by intros [= <-].
Qed.

Lemma existsb_filter_nonempty {A B} (f : B -> bool) (g : A -> B) (l : list A) :
  existsb f (map g l) = true -> List.filter (fun a => f (g a)) l ≠ [].
Proof.
  induction l as [|a l IH]; cbn; [done|].
  destruct (f (g a)); [done|]. cbn. exact IH.
Qed.

Lemma calls_at_most_once_bind P {A B} (m : M A) (f : A -> M B) :
  silent m -> (forall a, calls_at_most_once P (f a)) ->
  calls_at_most_once P (m ≫= f).
Proof.
  intros Hm Hf s. unfold mbind, M_bind. specialize (Hm s).
  destruct (m s) as [[a|e] s']; cbn in Hm; [|by left].
  rewrite <- Hm. apply (Hf a).
Qed.

Lemma prediction_tool_calls predict_proba category_cols cust_id :
  calls_at_most_once (one_row_of_features category_cols)
    (prediction_tool predict_proba category_cols cust_id).
Proof.
  intros [d tr]. unfold prediction_tool. run.
  case_bool_decide; [by left|].
  destruct (getitem d "Customer_ID") as [ids|e] eqn:Eids; [|by left].
  destruct (existsb (eq_str cust_id) ids) eqn:Efound; [|by left].
  destruct (getitem_list _ _) as [inputs|e] eqn:Einputs; [|by left].
  right. exists inputs. split.
  - apply getitem_list_inv in Einputs as ->. split; [done|].
    cbn [rows iloc_slice_0_1 boolean_index]. rewrite length_map.
    apply getitem_inv in Eids as [_ ->].
    rewrite (map_map (fun r => r !!! "Customer_ID") (eq_str cust_id)).
    rewrite (boolean_index_rows_filter
               (fun r => eq_str cust_id (r !!! "Customer_ID"))).
    apply existsb_filter_nonempty in Efound.
    destruct (List.filter _ (rows d)); [done|]. reflexivity.
  - destruct (predict_proba inputs) as [proba|e];
      [destruct (index_0_1 proba)|]; cbn [snd trace];
      rewrite ?calls_app; cbn; by rewrite ?app_nil_r.
Qed.

Lemma not_feature_col category_cols c :
  c ∉ ["Purchase_Value"; "Email_Engagement"; "Discount_Used";
       "frequency"; "total_spent"; "avg_spent"; "recency_days";
       "purchase_month"; "purchase_dayofweek"] ->
  c ∉ category_cols ->
  c ∉ feature_cols_of category_cols.
Proof. intros H1 H2. unfold feature_cols_of. rewrite elem_of_app. tauto. Qed.

Lemma not_category_col d c :
  startswith c "Category_" = false -> c ∉ category_cols_of d.
Proof. intros H Hin. apply elem_of_category_cols_of in Hin. destruct Hin. congruence. Qed.

(** X7: one run calls the classifier at most once, on one row of features
    only.  Whatever the table and the inputs, the script either does not
    call the classifier, or calls it exactly once, on a frame of one row
    whose columns are the nine features followed by the category columns
    that line 22 found; this frame has neither the label [Return_Visit], nor
    [Customer_ID], nor the column [Segment] that line 104 has added to the
    table by then. *)
Theorem classifier_called_at_most_once
    argsort predict_proba observed selected_cat cust_id s :
  calls (trace (dashboard argsort predict_proba observed selected_cat cust_id
                  s).2)
  = calls (trace s) \/
  exists inputs,
    calls (trace (dashboard argsort predict_proba observed selected_cat
                    cust_id s).2)
    = calls (trace s) ++ [inputs] /\
    columns inputs = feature_cols_of (category_cols_of (df s)) /\
    length (rows inputs) = 1 /\
    ("Return_Visit" ∉ columns inputs) /\
    ("Customer_ID" ∉ columns inputs) /\
    ("Segment" ∉ columns inputs).
Proof.
  assert (calls_at_most_once (one_row_of_features (category_cols_of (df s)))
            (kpis ≫= fun _ =>
             category_section selected_cat ≫= fun _ =>
             return_by_category (category_cols_of (df s))
               (categories_of (category_cols_of (df s))) ≫= fun r =>
             return_by_email ≫= fun _ =>
             insights argsort r.2 ≫= fun _ =>
             segmentation observed ≫= fun _ =>
             prediction_tool predict_proba (category_cols_of (df s)) cust_id))
    as H.
  { apply calls_at_most_once_bind; [apply silent_kpis|intros _].
    apply calls_at_most_once_bind; [apply silent_category_section|intros _].
    apply calls_at_most_once_bind; [apply silent_return_by_category|intros r].
    apply calls_at_most_once_bind; [apply silent_return_by_email|intros _].
    apply calls_at_most_once_bind; [apply silent_insights|intros _].
    apply calls_at_most_once_bind; [apply silent_segmentation|intros _].
    apply prediction_tool_calls. }
  destruct (H s) as [Hnone|(inputs & [Hcols Hrows] & Hone)]; [by left|].
  right. exists inputs. split; [exact Hone|]. rewrite Hcols.
  split_and!; [done..| | |];
    (apply not_feature_col; [compute_done|by apply not_category_col]).
Qed.

Lemma leaves_table_bind {A B} (m : M A) (f : A -> M B) :
  leaves_table m -> (forall a, leaves_table (f a)) -> leaves_table (m ≫= f).
Proof.
  intros Hm Hf s. unfold mbind, M_bind. specialize (Hm s).
  destruct (m s) as [[a|e] s']; [|done].
  cbn in Hm. rewrite <- Hm. apply (Hf a).
Qed.

Lemma at_most_segment_bind_l {A B} (m : M A) (f : A -> M B) :
  leaves_table m -> (forall a, at_most_segment (f a)) ->
  at_most_segment (m ≫= f).
Proof.
  intros Hm Hf s. unfold mbind, M_bind. specialize (Hm s).
  destruct (m s) as [[a|e] s']; cbn in Hm; [|by left].
  rewrite <- Hm. apply (Hf a).
Qed.

Lemma at_most_segment_bind_r {A B} (m : M A) (f : A -> M B) :
  at_most_segment m -> (forall a, leaves_table (f a)) ->
  at_most_segment (m ≫= f).
Proof.
  intros Hm Hf s. unfold mbind, M_bind. specialize (Hm s).
  destruct (m s) as [[a|e] s']; cbn in Hm; [|done].
  rewrite (Hf a s'). done.
Qed.

Lemma segment_on_success_bind_l {A B} (m : M A) (f : A -> M B) :
  leaves_table m -> (forall a, segment_on_success (f a)) ->
  segment_on_success (m ≫= f).
Proof.
  intros Hm Hf s b. unfold mbind, M_bind. specialize (Hm s).
  destruct (m s) as [[a|e] s']; cbn in Hm; [|done].
  rewrite <- Hm. apply (Hf a).
Qed.

Lemma segment_on_success_bind_r {A B} (m : M A) (f : A -> M B) :
  segment_on_success m -> (forall a, leaves_table (f a)) ->
  segment_on_success (m ≫= f).
Proof.
  intros Hm Hf s b. unfold mbind, M_bind. specialize (Hm s).
  destruct (m s) as [[a|e] s']; cbn in Hm; [|done].
  intros _. rewrite (Hf a s'). by eapply Hm.
Qed.

Lemma at_most_segment_segmentation observed :
  at_most_segment (segmentation observed).
Proof.
  intros [d tr].
  destruct (segmentation_cases observed d tr) as [(_ & _ & E)|[e E]]; rewrite E.
  - right. apply df_segmentation_outcome.
  - by left.
Qed.

Lemma segment_on_success_segmentation observed :
  segment_on_success (segmentation observed).
Proof.
  intros [d tr] a.
  destruct (segmentation_cases observed d tr) as [(_ & _ & E)|[e E]]; rewrite E.
  - intros _. apply df_segmentation_outcome.
  - done.
Qed.

(** X8: all a run does to the table is line 104.  Whatever the table and
    the inputs, and however the run ends, the table afterwards is the table
    before, or the table before with the column [Segment] assigned; no
    other column and no row changes.  When the run ends normally, the
    column has been assigned. *)
Theorem dashboard_table argsort predict_proba observed selected_cat cust_id s :
  (df (dashboard argsort predict_proba observed selected_cat cust_id s).2
   = df s \/
   df (dashboard argsort predict_proba observed selected_cat cust_id s).2
   = with_segment (df s)) /\
  only_segment_changed (df s)
    (df (dashboard argsort predict_proba observed selected_cat cust_id s).2) /\
  ((dashboard argsort predict_proba observed selected_cat cust_id s).1
   = Ok tt ->
   df (dashboard argsort predict_proba observed selected_cat cust_id s).2
   = with_segment (df s)).
Proof.
  assert (at_most_segment
            (dashboard argsort predict_proba observed selected_cat
               cust_id)) as H1.
  { unfold dashboard.
    apply at_most_segment_bind_l; [apply read_only_read_df|intros d].
    apply at_most_segment_bind_l; [apply read_only_kpis|intros _].
    apply at_most_segment_bind_l; [apply read_only_category_section|intros _].
    apply at_most_segment_bind_l;
      [apply read_only_return_by_category|intros r].
    apply at_most_segment_bind_l; [apply read_only_return_by_email|intros _].
    apply at_most_segment_bind_l; [apply read_only_insights|intros _].
    apply at_most_segment_bind_r;
      [apply at_most_segment_segmentation|intros _].
    apply read_only_prediction_tool. }
  assert (segment_on_success
            (dashboard argsort predict_proba observed selected_cat
               cust_id)) as H2.
  { unfold dashboard.
    apply segment_on_success_bind_l; [apply read_only_read_df|intros d].
    apply segment_on_success_bind_l; [apply read_only_kpis|intros _].
    apply segment_on_success_bind_l;
      [apply read_only_category_section|intros _].
    apply segment_on_success_bind_l;
      [apply read_only_return_by_category|intros r].
    apply segment_on_success_bind_l;
      [apply read_only_return_by_email|intros _].
    apply segment_on_success_bind_l; [apply read_only_insights|intros _].
    apply segment_on_success_bind_r;
      [apply segment_on_success_segmentation|intros _].
    apply read_only_prediction_tool. }
  split; [apply H1|]. split; [|apply H2].
  destruct (H1 s) as [->| ->].
  - apply only_segment_changed_refl.
  - apply only_segment_changed_with_segment.
Qed.

(** ** A table without category columns *)

Lemma stops_bind_l {A B} (Q : A -> Prop) (m : M A) (f : A -> M B) :
  leaves_table m -> silent m ->
  (forall s a, (m s).1 = Ok a -> Q a) ->
  (forall a, Q a -> stops (f a)) ->
  stops (m ≫= f).
Proof.
  intros Hl Hs HQ Hf s. unfold mbind, M_bind.
  specialize (Hl s). specialize (Hs s). specialize (HQ s).
  destruct (m s) as [[a|e] s']; cbn in *.
  - rewrite <- Hl, <- Hs. apply (Hf a). by apply HQ.
  - split; [by eexists|done].
Qed.

Lemma return_by_category_none d tr r :
  (return_by_category [] [] (mkState d tr)).1 = Ok r ->
  r.2 = mkDataFrame ["Category"; "Return_Rate"] [].
Proof. by intros [= <-]. Qed.

Lemma stops_insights_none {B} argsort (f : unit -> M B) :
  stops (insights argsort (mkDataFrame ["Category"; "Return_Rate"] []) ≫= f).
Proof.
  intros s. unfold insights. run. rewrite top_and_lowest_no_categories.
  split; [by eexists|done].
Qed.

(** X9: without category columns the page stops at the insights.  On a
    table none of whose columns starts with [Category_], whatever the
    inputs, the run raises (at line 84 at the latest, where [cat_df] has
    no first row): the segmentation and the prediction tool are never
    reached, so the table is as it was and the classifier is not called. *)
Theorem dashboard_without_categories
    argsort predict_proba observed selected_cat cust_id s :
  category_cols_of (df s) = [] ->
  (exists e,
     (dashboard argsort predict_proba observed selected_cat cust_id s).1
     = Raise e) /\
  df (dashboard argsort predict_proba observed selected_cat cust_id s).2
  = df s /\
  calls (trace (dashboard argsort predict_proba observed selected_cat cust_id
                  s).2)
  = calls (trace s).
Proof.
  intros Hnone.
  assert (stops
            (kpis ≫= fun _ =>
             category_section selected_cat ≫= fun _ =>
             return_by_category (category_cols_of (df s))
               (categories_of (category_cols_of (df s))) ≫= fun r =>
             return_by_email ≫= fun _ =>
             insights argsort r.2 ≫= fun _ =>
             segmentation observed ≫= fun _ =>
             prediction_tool predict_proba (category_cols_of (df s)) cust_id))
    as H.
  { rewrite Hnone. change (categories_of []) with (@nil string).
    apply (stops_bind_l (fun _ => True));
      [apply read_only_kpis|apply silent_kpis|done|intros _ _].
    apply (stops_bind_l (fun _ => True));
      [apply read_only_category_section|apply silent_category_section
      |done|intros _ _].
    apply (stops_bind_l
             (fun r => r.2 = mkDataFrame ["Category"; "Return_Rate"] []));
      [apply read_only_return_by_category|apply silent_return_by_category
      | |intros r Hr].
    { intros [d tr] r. apply return_by_category_none. }
    apply (stops_bind_l (fun _ => True));
      [apply read_only_return_by_email|apply silent_return_by_email
      |done|intros _ _].
    rewrite Hr. apply stops_insights_none. }
  exact (H s).
Qed.

Lemma dashboard_without_categories_witness :
  ((exists e,
      (dashboard stable_argsort stub_model true "All" "C1"
         (mkState uncategorised [])).1 = Raise e) /\
   df (dashboard stable_argsort stub_model true "All" "C1"
         (mkState uncategorised [])).2
   = df (mkState uncategorised []) /\
   calls (trace (dashboard stable_argsort stub_model true "All" "C1"
                   (mkState uncategorised [])).2)
   = calls (trace (mkState uncategorised []))) /\
  dashboard stable_argsort stub_model true "All" "C1"
    (mkState uncategorised [])
  = (Raise IndexError,
     mkState uncategorised
       [metric "Total Customers" (Fin 2);
        metric "Overall Return Rate" (Fin 50);
        metric "Avg Purchase Value" (Fin 80);
        metric "Email Click Rate" (Fin 50);
        write_return_rate (Fin 50);
        plotly_chart "Return Rate by Category"
          (mkDataFrame ["Category"; "Return_Rate"] []);
        plotly_chart "Impact of Email Engagement on Return Visits"
          (mkDataFrame ["Email_Engagement"; "Return_Visit"]
             [email_row (Str "Clicked") (Fin 1);
              email_row (Str "Opened") (Fin 0)])]).
Proof.
  split.
  - apply (dashboard_without_categories stable_argsort stub_model true
             "All" "C1" (mkState uncategorised [])).
    reflexivity.
  - reflexivity.
Defined.

(** ** How the segmentation fails (lines 104-110) *)






(** ** More on the prediction tool (lines 122-138) *)

(** X12: identifiers read as numbers are never found.  When every cell of
    [Customer_ID] is a number or missing (as after [pd.read_csv] of purely
    numeric identifiers), no text typed into the tool matches: for every
    identifier the tool returns normally, does not call the classifier and
    renders nothing. *)
Theorem numeric_ids_never_match predict_proba category_cols cust_id d tr :
  "Customer_ID" ∈ columns d ->
  Forall (fun r => is_float (r !!! "Customer_ID")) (rows d) ->
  prediction_tool predict_proba category_cols cust_id (mkState d tr)
  = (Ok tt, mkState d tr).
Proof.
  intros Hcol Hnum. unfold prediction_tool. run.
  case_bool_decide; [done|].
  rewrite (getitem_Ok _ _ Hcol).
  rewrite existsb_eq_str_false; [done|].
  eapply Forall_impl; [exact Hnum|]. by intros r [f ->].
Qed.

Lemma numeric_ids_never_match_witness :
  prediction_tool stub_model [] "1001" (mkState numeric_ids [])
  = (Ok tt, mkState numeric_ids []).
Proof.
  apply (numeric_ids_never_match stub_model [] "1001" numeric_ids []).
  - compute_done.
  - repeat constructor; by eexists.
Defined.

Lemma getitem_list_Raise d names :
  Exists (fun n => n ∉ columns d) names ->
  exists n, getitem_list d names = Raise (KeyError n) /\
            n ∈ names /\ n ∉ columns d.
Proof.
  intros Hex. unfold getitem_list.
  destruct (List.find _ names) as [n|] eqn:E.
  - apply find_some in E as [Hin Hn]. apply bool_decide_eq_true in Hn.
    exists n. split_and!; [done| |done]. by apply list_elem_of_In.
  - apply Exists_exists in Hex as (n & Hin & Hn).
    apply list_elem_of_In in Hin.
    pose proof (find_none _ _ E n Hin) as Hf. cbn in Hf.
    by apply bool_decide_eq_false in Hf.
Qed.

(** X13: a missing feature column stops the lookup before the classifier.
    When the identifier is in the table but one of the feature columns is
    not, line 133 raises [KeyError] for a missing feature column: the
    classifier is not called and nothing is rendered. *)
Theorem lookup_missing_feature predict_proba category_cols cust_id d tr :
  cust_id ≠ EmptyString ->
  "Customer_ID" ∈ columns d ->
  Exists (matches cust_id) (rows d) ->
  Exists (fun c => c ∉ columns d) (feature_cols_of category_cols) ->
  exists c,
    prediction_tool predict_proba category_cols cust_id (mkState d tr)
    = (Raise (KeyError c), mkState d tr) /\
    c ∈ feature_cols_of category_cols /\ c ∉ columns d.
Proof.
  intros Hne Hid Hex Hmiss. unfold prediction_tool. run.
  rewrite bool_decide_false by done.
  rewrite (getitem_Ok _ _ Hid).
  assert (existsb (eq_str cust_id)
            (map (fun r => r !!! "Customer_ID") (rows d)) = true) as ->.
  { apply existsb_exists. exists (Str cust_id). split; [|by apply eq_str_true].
    apply Exists_exists in Hex as (r & Hr & Hm).
    apply in_map_iff. exists r. split; [done|]. by apply list_elem_of_In. }
  set (row := iloc_slice_0_1 _).
  destruct (getitem_list_Raise row (feature_cols_of category_cols) Hmiss)
    as (c & -> & Hc & Hc').
  by exists c.
Qed.

Lemma lookup_missing_feature_witness :
  exists c,
    prediction_tool stub_model (category_cols_of sample) "C1"
      (mkState sample [])
    = (Raise (KeyError c), mkState sample []) /\
    c ∈ feature_cols_of (category_cols_of sample) /\ c ∉ columns sample.
Proof.
  apply (lookup_missing_feature stub_model (category_cols_of sample) "C1"
           sample []).
  - done.
  - compute_done.
  - left. reflexivity.
  - right. right. left. compute_done.
Defined.

(** ** The frame of rates (lines 63-71) *)

(** X14: with distinct categories the section of lines 63-71 succeeds.  On
    a table with a numeric [Return_Visit] column whose category columns
    give distinct categories, [cat_return] lists the categories in the
    order of the table, each with the mean of [Return_Visit] over the rows
    whose indicator is 1, [cat_df] holds the same pairs row by row, exactly
    one chart is rendered and the table is as it was. *)
Theorem return_by_category_distinct d tr :
  "Return_Visit" ∈ columns d ->
  Forall (fun r => is_float (r !!! "Return_Visit")) (rows d) ->
  NoDup (categories_of (category_cols_of d)) ->
  exists rates cat_df,
    Forall2 (fun col m => category_rate d col = Ok m)
            (category_cols_of d) rates /\
    cat_df = mkDataFrame ["Category"; "Return_Rate"]
               (zip_with category_row (categories_of (category_cols_of d))
                  rates) /\
    return_by_category (category_cols_of d)
      (categories_of (category_cols_of d)) (mkState d tr)
    = (Ok (zip (categories_of (category_cols_of d)) rates, cat_df),
       mkState d (tr ++ [plotly_chart "Return Rate by Category" cat_df])).
Proof.
  intros Hrv Hfl Hnd.
  destruct (return_by_category_run d tr Hrv Hfl Hnd)
    as (rates & cat_df & Hrates & Hdf & Erun).
  exists rates, cat_df. split_and!; [done| |done].
  by apply DataFrame_of_dict_inv in Hdf as [_ ->].
Qed.

Lemma return_by_category_distinct_witness :
  exists rates cat_df,
    Forall2 (fun col m => category_rate sample col = Ok m)
            (category_cols_of sample) rates /\
    cat_df = mkDataFrame ["Category"; "Return_Rate"]
               (zip_with category_row (categories_of (category_cols_of sample))
                  rates) /\
    return_by_category (category_cols_of sample)
      (categories_of (category_cols_of sample)) (mkState sample [])
    = (Ok (zip (categories_of (category_cols_of sample)) rates, cat_df),
       mkState sample ([] ++ [plotly_chart "Return Rate by Category" cat_df])).
Proof.
  apply (return_by_category_distinct sample []).
  - compute_done.
  - repeat constructor; by eexists.
  - compute_done.
Defined.

(** ** The rates by segment (lines 104-114) *)

Lemma eq_str_segment_cell (c : cell) :
  eq_str "Low" (segment_cell c) = in_bin 0 80 c /\
  eq_str "Medium" (segment_cell c) = in_bin 80 150 c /\
  eq_str "High" (segment_cell c) = in_bin 150 300 c.
Proof.
  destruct c as [[x|]|t]; [|done..].
  unfold segment_cell, segment_of, cut_value, searchsorted_left, in_bin.
  destruct (Qltb 0 x) eqn:E0;
    [apply Qltb_true in E0|apply Qltb_false in E0];
  (destruct (Qltb 80 x) eqn:E1;
    [apply Qltb_true in E1|apply Qltb_false in E1]);
  (destruct (Qltb 150 x) eqn:E2;
    [apply Qltb_true in E2|apply Qltb_false in E2]);
  (destruct (Qltb 300 x) eqn:E3;
    [apply Qltb_true in E3|apply Qltb_false in E3]);
  cbn; try (split_and!; reflexivity); lra.
Qed.

Lemma boolean_index_series_filter {A} (f : A -> bool) (g : A -> cell) l :
  boolean_index_series (map g l) (map f l) = map g (List.filter f l).
Proof. induction l as [|a l IH]; cbn; [done|]. destruct (f a); cbn; by rewrite IH. Qed.

Lemma group_rate_bin d label lo hi :
  (forall c, eq_str label (segment_cell c) = in_bin lo hi c) ->
  mean_of
    (match numeric
             (boolean_index_series
                (map (fun r => r !!! "Return_Visit") (rows d))
                (map (eq_str label)
                   (map (fun r => segment_cell (r !!! "Purchase_Value"))
                      (rows d))))
     with Ok qs => qs | Raise _ => [] end)
  = bin_rate d lo hi.
Proof.
  intros H. unfold bin_rate.
  rewrite (map_map (fun r => segment_cell (r !!! "Purchase_Value"))
             (eq_str label)).
  rewrite (map_ext _ (fun r => in_bin lo hi (r !!! "Purchase_Value")))
    by (intros r; apply H).
  rewrite (boolean_index_series_filter
             (fun r => in_bin lo hi (r !!! "Purchase_Value"))).
  by destruct (numeric _).
Qed.

Lemma getitem_with_segment_Segment d :
  getitem (with_segment d) "Segment"
  = Ok (map (fun r => segment_cell (r !!! "Purchase_Value")) (rows d)).
Proof.
  rewrite getitem_Ok.
  - unfold with_segment. cbn [rows]. rewrite map_map. f_equal.
    apply map_ext. intros r. apply lookup_total_insert_eq.
  - unfold with_segment. cbn [columns]. case_decide; [done|].
    apply elem_of_app. right. by left.
Qed.

Lemma getitem_with_segment_other d name :
  name ≠ "Segment" -> name ∈ columns d ->
  getitem (with_segment d) name = Ok (map (fun r => r !!! name) (rows d)).
Proof.
  intros Hne Hcol. rewrite getitem_Ok.
  - unfold with_segment. cbn [rows]. rewrite map_map. f_equal.
    apply map_ext. intros r. by apply lookup_total_insert_ne.
  - unfold with_segment. cbn [columns]. case_decide; [done|].
    apply elem_of_app. by left.
Qed.

Lemma existsb_segment_cell d label lo hi :
  (forall c, eq_str label (segment_cell c) = in_bin lo hi c) ->
  existsb (eq_str label)
    (map (fun r => segment_cell (r !!! "Purchase_Value")) (rows d))
  = bin_occupied d lo hi.
Proof.
  intros H. unfold bin_occupied.
  induction (rows d) as [|r rs IH]; cbn; [done|]. by rewrite H, IH.
Qed.

Lemma segmentation_Ok observed d tr :
  "Purchase_Value" ∈ columns d ->
  Forall (fun r => is_float (r !!! "Purchase_Value")) (rows d) ->
  "Return_Visit" ∈ columns d ->
  Forall (fun r => is_float (r !!! "Return_Visit")) (rows d) ->
  let seg := mkDataFrame ["Segment"; "Return_Visit"]
               (map (fun b => segment_row b.1 (bin_rate d b.2.1 b.2.2))
                  (charted_bins observed d)) in
  segmentation observed (mkState d tr)
  = (Ok seg,
     mkState (with_segment d)
       (tr ++ [plotly_chart "Return Rate by Spending Segment" seg])).
Proof.
  intros Hpv Hpvf Hrv Hrvf seg.
  rewrite segmentation_run by done. unfold segmentation_outcome.
  assert (groupby_categorical_mean observed (with_segment d) "Segment"
            ["Low"; "Medium"; "High"] "Return_Visit" = Ok seg) as ->; [|done].
  unfold groupby_categorical_mean.
  rewrite getitem_with_segment_Segment.
  rewrite (getitem_with_segment_other d "Return_Visit") by done. run.
  destruct (numeric_Ok (map (fun r => r !!! "Return_Visit") (rows d)))
    as [qs ->]; [by apply Forall_map|].
  subst seg. do 2 f_equal.
  unfold observed_categories, charted_bins, segment_bins.
  cbn [List.filter fst snd].
  rewrite (existsb_segment_cell d "Low" 0 80)
    by (intros c; apply eq_str_segment_cell).
  rewrite (existsb_segment_cell d "Medium" 80 150)
    by (intros c; apply eq_str_segment_cell).
  rewrite (existsb_segment_cell d "High" 150 300)
    by (intros c; apply eq_str_segment_cell).
  destruct observed;
    [destruct (bin_occupied d 0 80), (bin_occupied d 80 150),
       (bin_occupied d 150 300)|];
    cbn [map fst snd]; unfold segment_row;
    rewrite ?(group_rate_bin d "Low" 0 80)
      by (intros c; apply eq_str_segment_cell);
    rewrite ?(group_rate_bin d "Medium" 80 150)
      by (intros c; apply eq_str_segment_cell);
    rewrite ?(group_rate_bin d "High" 150 300)
      by (intros c; apply eq_str_segment_cell);
    reflexivity.
Qed.

(** X15: what the chart of segments shows.  On a table whose
    [Purchase_Value] and [Return_Visit] columns are numeric the segmentation
    succeeds; its frame has the columns [Segment] and [Return_Visit] and its
    rows are segments in the order Low, Medium, High, each with the mean of
    [Return_Visit] over the rows whose purchase value is in (0,80],
    (80,150], (150,300]; rows outside the bins are in no mean.  Line 110
    leaves [observed] at its default, so which segments have a row depends
    on the pandas installed: with [observed=False] (before 3.0) all three,
    a bin without rows having the mean [nan]; with [observed=True] (from
    3.0 on) only the bins that hold the purchase value of some row.  The
    chart of this frame is the one thing rendered. *)
Theorem segment_rates observed d tr :
  "Purchase_Value" ∈ columns d ->
  Forall (fun r => is_float (r !!! "Purchase_Value")) (rows d) ->
  "Return_Visit" ∈ columns d ->
  Forall (fun r => is_float (r !!! "Return_Visit")) (rows d) ->
  exists seg,
    segmentation observed (mkState d tr)
    = (Ok seg,
       mkState (with_segment d)
         (tr ++ [plotly_chart "Return Rate by Spending Segment" seg])) /\
    columns seg = ["Segment"; "Return_Visit"] /\
    rows seg
    = map (fun b => segment_row b.1 (bin_rate d b.2.1 b.2.2))
        (if observed
         then List.filter (fun b => bin_occupied d b.2.1 b.2.2)
                [("Low", (0, 80)); ("Medium", (80, 150));
                 ("High", (150, 300))]%Q
         else [("Low", (0, 80)); ("Medium", (80, 150));
               ("High", (150, 300))]%Q).
Proof.
  intros Hpv Hpvf Hrv Hrvf. eexists. split; [by apply segmentation_Ok|].
  split; [done|]. cbn [rows]. by destruct observed.
Qed.

Lemma segment_rates_witness :
  (exists seg,
     segmentation false (mkState prepared [])
     = (Ok seg,
        mkState (with_segment prepared)
          ([] ++ [plotly_chart "Return Rate by Spending Segment" seg])) /\
     columns seg = ["Segment"; "Return_Visit"] /\
     rows seg
     = [segment_row "Low" (Fin 0); segment_row "Medium" (Fin 1);
        segment_row "High" nan]) /\
  (exists seg,
     segmentation true (mkState prepared [])
     = (Ok seg,
        mkState (with_segment prepared)
          ([] ++ [plotly_chart "Return Rate by Spending Segment" seg])) /\
     columns seg = ["Segment"; "Return_Visit"] /\
     rows seg = [segment_row "Low" (Fin 0); segment_row "Medium" (Fin 1)]).
Proof.
  split.
  - apply (segment_rates false prepared []).
    + compute_done.
    + repeat constructor; by eexists.
    + compute_done.
    + repeat constructor; by eexists.
  - apply (segment_rates true prepared []).
    + compute_done.
    + repeat constructor; by eexists.
    + compute_done.
    + repeat constructor; by eexists.
Defined.

(** ** The groups of email engagement (lines 74-77) *)

Lemma cell_eqb_refl c : cell_eqb c c = true.
Proof.
  destruct c as [[q|]|t]; cbn; [apply Qeq_bool_refl|done|].
  by apply bool_decide_eq_true.
Qed.

Lemma cell_eqb_sym a b : cell_eqb a b = true -> cell_eqb b a = true.
Proof.
  destruct a as [[p|]|s], b as [[q|]|t]; cbn; try done.
  - apply Qeq_bool_sym.
  - rewrite !bool_decide_eq_true. congruence.
Qed.

Lemma cell_eqb_trans a b c :
  cell_eqb a b = true -> cell_eqb b c = true -> cell_eqb a c = true.
Proof.
  destruct a as [[p|]|s], b as [[q|]|t], c as [[r|]|u]; cbn; try done.
  - apply Qeq_bool_trans.
  - rewrite !bool_decide_eq_true. congruence.
Qed.

Lemma cell_leb_total a b : cell_leb a b = true \/ cell_leb b a = true.
Proof.
  destruct a as [[p|]|s], b as [[q|]|t]; cbn; auto.
  - destruct (Qle_bool p q) eqn:E; [by left|right].
    apply Qle_bool_false in E. apply Qle_bool_iff. lra.
  - apply String.leb_total.
Qed.

Lemma elem_of_List_filter {A} (f : A -> bool) (l : list A) x :
  x ∈ List.filter f l <-> x ∈ l /\ f x = true.
Proof. by rewrite !list_elem_of_In, filter_In. Qed.

Lemma elem_of_unique s c : c ∈ unique s -> c ∈ s.
Proof.
  revert c. induction s as [|a s IH]; intros c; cbn; [done|].
  rewrite !elem_of_cons, elem_of_List_filter. naive_solver.
Qed.

Lemma filter_nil_iff {A} (f : A -> bool) (l : list A) :
  (forall x, x ∈ l -> f x = false) -> List.filter f l = [].
Proof.
  induction l as [|a l IH]; intros H; cbn; [done|].
  rewrite (H a) by by left. apply IH. intros x Hx. apply H. by right.
Qed.

Lemma filter_filter_same {A} (f g : A -> bool) (l : list A) :
  (forall x, f x = true -> g x = true) ->
  List.filter f (List.filter g l) = List.filter f l.
Proof.
  intros H. induction l as [|a l IH]; cbn; [done|].
  destruct (g a) eqn:Eg; cbn; destruct (f a) eqn:Ef; rewrite ?IH; try done.
  apply H in Ef. congruence.
Qed.

(** Every value of the series has exactly one representative in [unique]. *)
Lemma unique_one s c :
  c ∈ s -> length (List.filter (fun k => cell_eqb k c) (unique s)) = 1.
Proof.
  induction s as [|a s IH]; [by inversion 1|]. intros Hc. cbn [unique List.filter].
  destruct (cell_eqb a c) eqn:Ea.
  - cbn [length]. f_equal.
    rewrite filter_nil_iff; [done|].
    intros k Hk. apply elem_of_List_filter in Hk as [_ Hk].
    destruct (cell_eqb k c) eqn:Ek; [|done].
    apply negb_true_iff in Hk.
    rewrite (cell_eqb_trans a c k Ea (cell_eqb_sym _ _ Ek)) in Hk. done.
  - rewrite filter_filter_same.
    + apply IH. apply elem_of_cons in Hc as [->|Hc]; [|done].
      by rewrite cell_eqb_refl in Ea.
    + intros k Hk. apply negb_true_iff.
      destruct (cell_eqb a k) eqn:Ek; [|done].
      by rewrite (cell_eqb_trans a k c Ek Hk) in Ea.
Qed.

Lemma filter_insert_sorted (f : cell -> bool) c s :
  length (List.filter f (insert_sorted c s))
  = length (List.filter f (c :: s)).
Proof.
  induction s as [|a s IH]; [done|]. cbn [insert_sorted].
  destruct (cell_leb c a); [done|].
  cbn [List.filter] in *. destruct (f a), (f c); cbn [length] in *; lia.
Qed.

Lemma filter_foldr_insert_sorted (f : cell -> bool) s :
  length (List.filter f (foldr insert_sorted [] s))
  = length (List.filter f s).
Proof.
  induction s as [|a s IH]; [done|]. cbn [foldr].
  rewrite filter_insert_sorted. cbn [List.filter].
  destruct (f a); cbn [length]; by rewrite IH.
Qed.

Lemma elem_of_insert_sorted c s x :
  x ∈ insert_sorted c s <-> x = c \/ x ∈ s.
Proof.
  induction s as [|a s IH]; cbn; [set_solver|].
  destruct (cell_leb c a); [set_solver|].
  rewrite !elem_of_cons, IH. naive_solver.
Qed.

Lemma elem_of_foldr_insert_sorted s x :
  x ∈ foldr insert_sorted [] s <-> x ∈ s.
Proof.
  induction s as [|a s IH]; cbn; [done|].
  rewrite elem_of_insert_sorted, IH. set_solver.
Qed.

Lemma insert_sorted_Sorted c s :
  Sorted (fun a b => cell_leb a b = true) s ->
  Sorted (fun a b => cell_leb a b = true) (insert_sorted c s).
Proof.
  induction 1 as [|a s Hs IH Ha]; cbn.
  - repeat constructor.
  - destruct (cell_leb c a) eqn:E.
    + constructor; [by constructor|by constructor].
    + constructor; [done|].
      assert (cell_leb a c = true) as Hac
        by (destruct (cell_leb_total a c); congruence).
      destruct Ha as [|b s Hab]; cbn; [by constructor|].
      destruct (cell_leb c b); by constructor.
Qed.

Lemma group_keys_Sorted k :
  Sorted (fun a b => cell_leb a b = true) (group_keys k).
Proof.
  unfold group_keys. induction (unique _) as [|a s IH]; cbn; [constructor|].
  by apply insert_sorted_Sorted.
Qed.

Lemma elem_of_group_keys k key :
  key ∈ group_keys k -> is_nan key = false /\ key ∈ k.
Proof.
  unfold group_keys. rewrite elem_of_foldr_insert_sorted.
  intros H. apply elem_of_unique, elem_of_List_filter in H as [? H].
  split; [|done]. by apply negb_true_iff in H.
Qed.

Lemma group_keys_one k c :
  c ∈ k -> is_nan c = false ->
  length (List.filter (fun key => cell_eqb key c) (group_keys k)) = 1.
Proof.
  intros Hc Hnan. unfold group_keys. rewrite filter_foldr_insert_sorted.
  apply unique_one. apply elem_of_List_filter. by rewrite Hnan.
Qed.

Lemma group_keys_none k c :
  is_nan c = true ->
  List.filter (fun key => cell_eqb key c) (group_keys k) = [].
Proof.
  intros Hnan. apply filter_nil_iff. intros key Hkey.
  apply elem_of_group_keys in Hkey as [Hkey _].
  destruct c as [[q|]|t]; try done; by destruct key as [[?|]|?].
Qed.

Lemma groupby_mean_email d :
  "Email_Engagement" ∈ columns d ->
  "Return_Visit" ∈ columns d ->
  Forall (fun r => is_float (r !!! "Return_Visit")) (rows d) ->
  groupby_mean d "Email_Engagement" "Return_Visit"
  = Ok (mkDataFrame ["Email_Engagement"; "Return_Visit"]
          (map (fun key => email_row key (group_rate d key))
             (group_keys (map (fun r => r !!! "Email_Engagement") (rows d))))).
Proof.
  intros Hee Hrv Hfl. unfold groupby_mean.
  rewrite (getitem_Ok _ _ Hee), (getitem_Ok _ _ Hrv). run.
  destruct (numeric_Ok (map (fun r => r !!! "Return_Visit") (rows d)))
    as [qs ->]; [by apply Forall_map|].
  do 2 f_equal. apply map_ext. intros key. unfold email_row, group_rate.
  rewrite (map_map (fun r => r !!! "Email_Engagement") (cell_eqb key)).
  rewrite (boolean_index_series_filter
             (fun r => cell_eqb key (r !!! "Email_Engagement"))).
  by destruct (numeric _).
Qed.

(** X16: the groups of email engagement.  On a table with an
    [Email_Engagement] column and a numeric [Return_Visit] column the
    section of lines 74-77 succeeds and renders one chart of a frame with
    one row per group, holding the mean of [Return_Visit] over the rows of
    the group.  The group keys are sorted, none is missing, each occurs in
    the column; every row whose engagement is present is in exactly one
    group, and a row whose engagement is missing is in none. *)
Theorem email_groups d tr :
  "Email_Engagement" ∈ columns d ->
  "Return_Visit" ∈ columns d ->
  Forall (fun r => is_float (r !!! "Return_Visit")) (rows d) ->
  exists keys email_df,
    email_df = mkDataFrame ["Email_Engagement"; "Return_Visit"]
                 (map (fun key => email_row key (group_rate d key)) keys) /\
    return_by_email (mkState d tr)
    = (Ok email_df,
       mkState d
         (tr ++ [plotly_chart "Impact of Email Engagement on Return Visits"
                   email_df])) /\
    Sorted (fun a b => cell_leb a b = true) keys /\
    (forall key, key ∈ keys ->
       is_nan key = false /\
       exists r, r ∈ rows d /\ r !!! "Email_Engagement" = key) /\
    (forall r, r ∈ rows d -> is_nan (r !!! "Email_Engagement") = false ->
       length (List.filter
                 (fun key => cell_eqb key (r !!! "Email_Engagement")) keys)
       = 1) /\
    (forall r, r ∈ rows d -> is_nan (r !!! "Email_Engagement") = true ->
       List.filter (fun key => cell_eqb key (r !!! "Email_Engagement")) keys
       = []).
Proof.
  intros Hee Hrv Hfl.
  set (col := map (fun r => r !!! "Email_Engagement") (rows d)).
  exists (group_keys col). eexists. split; [reflexivity|]. split_and!.
  - unfold return_by_email. run.
    by rewrite (groupby_mean_email d Hee Hrv Hfl).
  - apply group_keys_Sorted.
  - intros key Hkey. apply elem_of_group_keys in Hkey as [Hnan Hin].
    split; [done|]. subst col. rewrite <- fmap_is_map in Hin.
    apply list_elem_of_fmap in Hin as (r & -> & Hr). by exists r.
  - intros r Hr Hnan. apply group_keys_one; [|done].
    subst col. rewrite <- fmap_is_map. by apply list_elem_of_fmap_2.
  - intros r Hr Hnan. by apply group_keys_none.
Qed.

Lemma email_groups_witness :
  exists keys email_df,
    email_df = mkDataFrame ["Email_Engagement"; "Return_Visit"]
                 (map (fun key => email_row key (group_rate prepared key))
                    keys) /\
    return_by_email (mkState prepared [])
    = (Ok email_df,
       mkState prepared
         ([] ++ [plotly_chart "Impact of Email Engagement on Return Visits"
                   email_df])) /\
    Sorted (fun a b => cell_leb a b = true) keys /\
    (forall key, key ∈ keys ->
       is_nan key = false /\
       exists r, r ∈ rows prepared /\ r !!! "Email_Engagement" = key) /\
    (forall r, r ∈ rows prepared ->
       is_nan (r !!! "Email_Engagement") = false ->
       length (List.filter
                 (fun key => cell_eqb key (r !!! "Email_Engagement")) keys)
       = 1) /\
    (forall r, r ∈ rows prepared ->
       is_nan (r !!! "Email_Engagement") = true ->
       List.filter (fun key => cell_eqb key (r !!! "Email_Engagement")) keys
       = []).
Proof.
  apply (email_groups prepared []).
  - compute_done.
  - compute_done.
  - repeat constructor; by eexists.
Defined.

(** ** A table without rows *)

Lemma kpis_no_rows d tr :
  rows d = [] ->
  "Return_Visit" ∈ columns d -> "Purchase_Value" ∈ columns d ->
  "Email_Engagement" ∈ columns d ->
  kpis (mkState d tr) = (Ok tt, mkState d (tr ++ kpi_metrics d nan nan nan)).
Proof.
  intros Hrows Hrv Hpv Hee. unfold kpis. run.
  rewrite !getitem_Ok by done. rewrite Hrows. cbn [map].
  change (mean []) with (Ok nan). run.
  unfold kpi_metrics. by rewrite <- !app_assoc.
Qed.

Lemma category_section_no_rows selected_cat d tr :
  rows d = [] ->
  "Return_Visit" ∈ columns d ->
  selected_cat = "All" \/ ("Category_" +:+ selected_cat) ∈ columns d ->
  category_section selected_cat (mkState d tr)
  = (Ok tt, mkState d (tr ++ [write_return_rate nan])).
Proof.
  intros Hrows Hrv Hsel. unfold category_section, category_filter. run.
  rewrite copy_eq. case_bool_decide as Hall.
  - destruct Hsel as [->|Hcol]; [done|].
    run. rewrite (getitem_Ok _ _ Hcol). run.
    unfold filtered_return_rate. rewrite getitem_Ok by done.
    unfold boolean_index. rewrite Hrows. cbn. reflexivity.
  - run. unfold filtered_return_rate. rewrite getitem_Ok by done.
    rewrite Hrows. cbn. reflexivity.
Qed.

Lemma category_rate_no_rows d col :
  rows d = [] -> "Return_Visit" ∈ columns d -> col ∈ columns d ->
  category_rate d col = Ok nan.
Proof.
  intros Hrows Hrv Hcol. unfold category_rate.
  rewrite (getitem_Ok _ _ Hcol). run.
  rewrite getitem_Ok by done. unfold boolean_index. rewrite Hrows.
  reflexivity.
Qed.

Lemma zip_with_category_row_nan categories rates :
  length categories = length rates ->
  Forall (fun f => f = nan) rates ->
  zip_with category_row categories rates
  = map (fun c => category_row c nan) categories.
Proof.
  revert rates. induction categories as [|c cs IH]; intros [|f rates] Hlen Hnan;
    try done.
  apply Forall_cons in Hnan as [-> Hnan]. cbn. f_equal. apply IH; [|done].
  cbn in Hlen. lia.
Qed.

(** X17: the whole script on a table that has the columns but no rows.
    With at least one category, distinct category names and a selection
    that is ["All"] or names a column, the run ends normally: every number
    shown is [nan], the three charts are drawn, the first category is named
    as the highest and as the lowest, the classifier is not called, and the
    table has got its column [Segment].  The chart of categories has one
    row per category and the chart of email engagement has no row; the
    chart of segments has one row per segment with [observed=False] (pandas
    before 3.0) and no row with [observed=True] (from 3.0 on). *)
Theorem dashboard_no_rows argsort predict_proba observed selected_cat cust_id
    d tr c categories :
  rows d = [] ->
  "Return_Visit" ∈ columns d -> "Purchase_Value" ∈ columns d ->
  "Email_Engagement" ∈ columns d -> "Customer_ID" ∈ columns d ->
  categories_of (category_cols_of d) = c :: categories ->
  NoDup (c :: categories) ->
  selected_cat = "All" \/ ("Category_" +:+ selected_cat) ∈ columns d ->
  dashboard argsort predict_proba observed selected_cat cust_id (mkState d tr)
  = (Ok tt,
     mkState (with_segment d)
       (tr ++ empty_page observed d (c :: categories) c)).
Proof.
  intros Hrows Hrv Hpv Hee Hid Hcats Hnd Hsel.
  assert (Forall (fun r => is_float (r !!! "Return_Visit")) (rows d)) as Hrvf
    by (rewrite Hrows; constructor).
  assert (Forall (fun r => is_float (r !!! "Purchase_Value")) (rows d))
    as Hpvf by (rewrite Hrows; constructor).
  destruct (return_by_category_run d
              (tr ++ kpi_metrics d nan nan nan ++ [write_return_rate nan])
              Hrv Hrvf) as (rates & cat_df & Hrates & Hdf & Hrun).
  { by rewrite Hcats. }
  assert (Forall (fun f => f = nan) rates) as Hnan.
  { clear -Hrates Hrows Hrv. induction Hrates as [|col m cc rs Hm _ IH].
    - constructor.
    - constructor; [|done].
      destruct (decide (col ∈ columns d)) as [Hcol|Hcol].
      + rewrite category_rate_no_rows in Hm by done. congruence.
      + unfold category_rate in Hm. by rewrite getitem_Raise in Hm. }
  rewrite Hcats in Hdf, Hrun.
  pose proof (DataFrame_of_dict_inv _ _ _ Hdf) as [Hlen Hcat_df].
  rewrite zip_with_category_row_nan in Hcat_df by done.
  assert (top_and_lowest argsort cat_df
          = Ok (category_row c nan, category_row c nan)) as Htop.
  { apply DataFrame_of_dict_inv in Hdf as [Hlen' ->].
    unfold top_and_lowest. rewrite !sort_values_cat_df_any by done.
    rewrite !nargsort_all_nan by done.
    destruct rates as [|f rates]; [done|].
    apply Forall_cons in Hnan as [-> _]. run. reflexivity. }
  unfold dashboard. unfold mbind at 1, M_bind at 1, read_df at 1.
  cbn beta iota delta [fst snd df trace]. rewrite Hcats.
  unfold mbind at 1, M_bind at 1. rewrite kpis_no_rows by done.
  cbn beta iota.
  unfold mbind at 1, M_bind at 1. rewrite category_section_no_rows by done.
  cbn beta iota. rewrite <- app_assoc.
  unfold mbind at 1, M_bind at 1. rewrite Hrun. cbn beta iota.
  unfold mbind at 1, M_bind at 1. unfold return_by_email. run.
  rewrite (groupby_mean_email d Hee Hrv Hrvf). rewrite Hrows. cbn [map].
  change (group_keys []) with (@nil cell). cbn [map].
  unfold insights. run. rewrite Htop. run.
  rewrite segmentation_Ok by done. cbn zeta. run.
  unfold prediction_tool. run.
  assert ("Customer_ID" ∈ columns (with_segment d)) as Hid'.
  { unfold with_segment. cbn [columns]. case_decide; [done|].
    apply elem_of_app. by left. }
  assert (map (fun b => segment_row b.1 (bin_rate d b.2.1 b.2.2))
            (charted_bins observed d)
          = if observed then []
            else [segment_row "Low" nan; segment_row "Medium" nan;
                  segment_row "High" nan]) as ->.
  { unfold charted_bins, bin_occupied, bin_rate, segment_bins.
    rewrite Hrows. by destruct observed. }
  assert (forall X : list event,
            ((((((tr ++ kpi_metrics d nan nan nan ++ [write_return_rate nan])
                 ++ [plotly_chart "Return Rate by Category" cat_df])
                ++ [plotly_chart
                      "Impact of Email Engagement on Return Visits"
                      (mkDataFrame ["Email_Engagement"; "Return_Visit"] [])])
               ++ [write_insights (category_row c nan) (category_row c nan)])
              ++ X)
            = tr ++ kpi_metrics d nan nan nan ++
              [write_return_rate nan;
               plotly_chart "Return Rate by Category" cat_df;
               plotly_chart "Impact of Email Engagement on Return Visits"
                 (mkDataFrame ["Email_Engagement"; "Return_Visit"] []);
               write_insights (category_row c nan) (category_row c nan)]
              ++ X)) as Happ.
  { intros X. rewrite <- !app_assoc. reflexivity. }
  case_bool_decide as Hempty.
  - run. rewrite Happ. unfold empty_page. by rewrite Hcat_df.
  - run. rewrite (getitem_Ok _ _ Hid'). run.
    unfold with_segment at 1. cbn [rows]. rewrite Hrows. cbn [map existsb].
    rewrite Happ. unfold empty_page. by rewrite Hcat_df.
Qed.

Lemma dashboard_no_rows_witness :
  dashboard ties_last_argsort stub_model false "Spa" "C1" (mkState no_rows [])
  = (Ok tt,
     mkState (with_segment no_rows)
       ([] ++ empty_page false no_rows ["Hair"; "Spa"] "Hair")) /\
  dashboard ties_last_argsort stub_model true "Spa" "C1" (mkState no_rows [])
  = (Ok tt,
     mkState (with_segment no_rows)
       ([] ++ empty_page true no_rows ["Hair"; "Spa"] "Hair")).
Proof.
  split.
  - apply (dashboard_no_rows ties_last_argsort stub_model false "Spa" "C1"
             no_rows [] "Hair" ["Spa"]).
    + reflexivity.
    + compute_done.
    + compute_done.
    + compute_done.
    + compute_done.
    + reflexivity.
    + compute_done.
    + right. compute_done.
  - apply (dashboard_no_rows ties_last_argsort stub_model true "Spa" "C1"
             no_rows [] "Hair" ["Spa"]).
    + reflexivity.
    + compute_done.
    + compute_done.
    + compute_done.
    + compute_done.
    + reflexivity.
    + compute_done.
    + right. compute_done.
Defined.
